(** * ECHONET Lite raw prober: codec, property formatter and sweep

    A shallow embedding of [src/raw_echonet.py].

    Python integers are [Z]; a [bytes]/[bytearray] object is a list of
    [Byte.byte], so that a byte is in [range(256)] by its type, exactly as
    in Python; the conversion from an integer to a byte is the checked one
    that [bytearray([...])] and [bytearray.extend] perform (it raises
    [ValueError] outside [range(256)]).  Exceptions are values of [exn];
    code that can raise lives in the [result] monad, and the sweep, which
    mutates a list and talks to a socket, in a state-and-exception monad
    whose state survives a raised exception, as a mutated Python list
    does. *)

From Stdlib Require Import ZArith List String Ascii Bool Lia.
From Stdlib Require Import Strings.Byte.
From Stdlib Require Import DecimalString.
Import ListNotations.

Local Open Scope string_scope.
Local Open Scope list_scope.
Local Open Scope Z_scope.

(** ** Python primitives *)

Module Py.

(** The exceptions the program can meet. *)
Inductive exn : Type :=
| IndexError (msg : string)
| ValueError (msg : string)
| SocketTimeout
| OSError (msg : string).

(** [str(e)] as used by the f-string [{e}]. *)
Definition exn_str (e : exn) : string :=
  match e with
  | IndexError m => m
  | ValueError m => m
  | SocketTimeout => "timed out"
  | OSError m => m
  end.

Inductive result (A : Type) : Type :=
| Ok (a : A)
| Raise (e : exn).
Arguments Ok {A} a.
Arguments Raise {A} e.

Definition rbind {A B} (m : result A) (k : A -> result B) : result B :=
  match m with
  | Ok a => k a
  | Raise e => Raise e
  end.

Definition bytes := list byte.

(** [b] read as an integer, what indexing a [bytes] object returns. *)
Definition int_of_byte (b : byte) : Z := Z.of_N (Byte.to_N b).

(** The conversion done on every element given to [bytearray(...)] and
    to [bytearray.extend(...)]. *)
Definition byte_of_int (n : Z) : result byte :=
  if (0 <=? n) && (n <? 256) then
    match Byte.of_N (Z.to_N n) with
    | Some b => Ok b
    | None => Raise (ValueError "byte must be in range(0, 256)")
    end
  else Raise (ValueError "byte must be in range(0, 256)").

(** [bytearray(xs)] for a list of integers. *)
Fixpoint bytearray (xs : list Z) : result bytes :=
  match xs with
  | [] => Ok []
  | x :: xs' =>
      rbind (byte_of_int x) (fun b =>
      rbind (bytearray xs') (fun bs => Ok (b :: bs)))
  end.

(** [packet.extend(xs)]: the packet is left as it was when an element
    is refused. *)
Definition extend (packet : bytes) (xs : list Z) : result bytes :=
  rbind (bytearray xs) (fun bs => Ok (packet ++ bs)%list).

(** [len(x)] *)
Definition len {A} (xs : list A) : Z := Z.of_nat (List.length xs).

(** [prop[i]] on a tuple of integers, for [i >= 0]; the properties the
    prober passes to the encoder are tuples. *)
Definition getitem (xs : list Z) (i : Z) : result Z :=
  if i <? 0 then Raise (IndexError "tuple index out of range")
  else match nth_error xs (Z.to_nat i) with
       | Some x => Ok x
       | None => Raise (IndexError "tuple index out of range")
       end.

(** [data[i]] on a [bytes] object, for [i >= 0]: an integer. *)
Definition bgetitem (data : bytes) (i : Z) : result Z :=
  if i <? 0 then Raise (IndexError "index out of range")
  else match nth_error data (Z.to_nat i) with
       | Some b => Ok (int_of_byte b)
       | None => Raise (IndexError "index out of range")
       end.

(** [xs[lo:hi]] for [0 <= lo]: slicing never raises and clamps to the
    end of the sequence. *)
Definition slice {A} (xs : list A) (lo hi : Z) : list A :=
  firstn (Z.to_nat (hi - lo)) (skipn (Z.to_nat lo) xs).

(** [xs[lo:]] *)
Definition slice_from {A} (xs : list A) (lo : Z) : list A :=
  skipn (Z.to_nat lo) xs.

(** [int.from_bytes(b, byteorder='big')] *)
Definition from_bytes_big (b : bytes) : Z :=
  fold_left (fun acc x => acc * 256 + int_of_byte x) b 0.

(** [int.from_bytes(b, byteorder='big', signed=True)] *)
Definition from_bytes_big_signed (b : bytes) : Z :=
  let u := from_bytes_big b in
  let bits := 8 * len b in
  if (0 <? bits) && (2 ^ (bits - 1) <=? u) then u - 2 ^ bits else u.

(** The decimal digits of an integer, with a minus sign when it is
    negative. *)
Definition decimal (n : Z) : string :=
  DecimalString.NilZero.string_of_int (Z.to_int n).

(** [sys.get_int_max_str_digits()], as the interpreter starts. *)
Definition int_max_str_digits : Z := 4300.

(** The text of the [ValueError] raised beyond that limit. *)
Definition int_limit_message : string :=
  "Exceeds the limit (4300 digits) for integer string conversion; use sys.set_int_max_str_digits() to increase the limit".

(** [str(n)] for an integer, which is also what the f-string [{n}]
    renders: an integer of more than 4300 digits is refused with
    [ValueError]. *)
Definition str_int (n : Z) : result string :=
  if 10 ^ int_max_str_digits <=? Z.abs n
  then Raise (ValueError int_limit_message)
  else Ok (decimal n).

Definition hex_digit (upper : bool) (d : Z) : ascii :=
  if d <? 10 then ascii_of_N (Z.to_N (48 + d))
  else ascii_of_N (Z.to_N ((if upper then 55 else 87) + d)).

(** The digits of [n >= 0] in base 16, most significant first; [n]
    bounds the number of digits, so the fuel never runs out. *)
Fixpoint hex_digits (fuel : nat) (upper : bool) (n : Z) (acc : string) : string :=
  match fuel with
  | O => acc
  | S fuel' =>
      let acc' := String (hex_digit upper (n mod 16)) acc in
      if n / 16 =? 0 then acc' else hex_digits fuel' upper (n / 16) acc'
  end.

(** [f"{n:02X}"] for [n >= 0]: upper-case hexadecimal, padded with
    zeros to two digits. *)
Definition format_02X (n : Z) : string :=
  let s := hex_digits (S (Z.to_nat n)) true n "" in
  if (String.length s <? 2)%nat then ("0" ++ s)%string else s.

(** [binascii.hexlify(b).decode()]: two lower-case digits per byte. *)
Fixpoint hexlify (b : bytes) : string :=
  match b with
  | [] => ""
  | x :: b' =>
      String (hex_digit false (int_of_byte x / 16))
        (String (hex_digit false (int_of_byte x mod 16)) (hexlify b'))
  end.

(** [needle in haystack] for strings. *)
Fixpoint contains (needle haystack : string) : bool :=
  String.prefix needle haystack ||
  match haystack with
  | EmptyString => false
  | String _ rest => contains needle rest
  end.

End Py.
Import Py.

Declare Scope result_scope.
Delimit Scope result_scope with result.
Notation "x <- m ;; k" := (rbind m (fun x => k))
  (at level 61, m at next level, right associativity) : result_scope.

(** ** ECHONET Lite constants *)

Definition ENL_PORT : Z := 3610.

Definition EPC_OPERATIONAL_STATUS : Z := 0x80.
Definition EPC_INSTALLATION_LOCATION : Z := 0x81.
Definition EPC_MANUFACTURER_CODE : Z := 0x8A.
Definition EPC_POWER_CONSUMPTION : Z := 0x84.
Definition EPC_CUMULATIVE_POWER : Z := 0x85.
Definition EPC_INSTANTANEOUS_POWER : Z := 0xE0.
Definition EPC_BATTERY_CHARGE_DISCHARGE : Z := 0xD3.

(** ** Frame codec *)

Section Codec.
Local Open Scope result_scope.

(** The loop [for prop in props] of [create_echonet_packet]; a property
    is a sequence of integers [epc, pdc, edt...]. *)
Fixpoint add_properties (packet : bytes) (props : list (list Z)) : result bytes :=
  match props with
  | [] => Ok packet
  | prop :: rest =>
      epc <- getitem prop 0 ;;
      pdc <- getitem prop 1 ;;
      let edt := slice_from prop 2 in
      packet <- extend packet [epc; pdc] ;;
      packet <- (if pdc >? 0 then extend packet edt else Ok packet) ;;
      add_properties packet rest
  end.

Definition create_echonet_packet
    (tid eojgc eojcc eojci esv : Z) (props : list (list Z)) : result bytes :=
  let ehd1 := 0x10 in
  let ehd2 := 0x81 in
  let tid_high := Z.land (Z.shiftr tid 8) 0xFF in
  let tid_low := Z.land tid 0xFF in
  let seoj1 := 0x05 in
  let seoj2 := 0xFF in
  let seoj3 := 0x01 in
  let deoj1 := eojgc in
  let deoj2 := eojcc in
  let deoj3 := eojci in
  let esv_code := esv in
  let opc := len props in
  packet <- bytearray [ehd1; ehd2; tid_high; tid_low;
                       seoj1; seoj2; seoj3;
                       deoj1; deoj2; deoj3;
                       esv_code; opc] ;;
  add_properties packet props.

(** A decoded property [(epc, pdc, edt)]. *)
Definition property : Type := Z * Z * bytes.

(** The dictionary returned by [parse_echonet_response]. *)
Record frame : Type := mkFrame {
  ehd : Z;
  tid : Z;
  seoj : Z * Z * Z;
  deoj : Z * Z * Z;
  esv : Z;
  opc : Z;
  props : list property
}.

(** The loop [for i in range(opc)]: [n] is the number of iterations
    left, [break] returns the list built so far. *)
Fixpoint parse_properties (n : nat) (data : bytes) (idx : Z)
    (props : list property) : result (list property) :=
  match n with
  | O => Ok props
  | S n' =>
      if idx + 2 >? len data then Ok props
      else
        epc <- bgetitem data idx ;;
        pdc <- bgetitem data (idx + 1) ;;
        if idx + 2 + pdc >? len data then Ok props
        else
          let edt := slice data (idx + 2) (idx + 2 + pdc) in
          parse_properties n' data (idx + 2 + pdc) (props ++ [(epc, pdc, edt)])
  end.

(** The body of the [try] block; [None] is Python's [None]. *)
Definition parse_body (data : bytes) : result (option frame) :=
  if len data <? 12 then Ok None
  else
    d0 <- bgetitem data 0 ;;
    d1 <- bgetitem data 1 ;;
    let ehd := Z.lor (Z.shiftl d0 8) d1 in
    d2 <- bgetitem data 2 ;;
    d3 <- bgetitem data 3 ;;
    let tid := Z.lor (Z.shiftl d2 8) d3 in
    d4 <- bgetitem data 4 ;;
    d5 <- bgetitem data 5 ;;
    d6 <- bgetitem data 6 ;;
    let seoj := (d4, d5, d6) in
    d7 <- bgetitem data 7 ;;
    d8 <- bgetitem data 8 ;;
    d9 <- bgetitem data 9 ;;
    let deoj := (d7, d8, d9) in
    esv <- bgetitem data 10 ;;
    opc <- bgetitem data 11 ;;
    props <- parse_properties (Z.to_nat opc) data 12 [] ;;
    Ok (Some (mkFrame ehd tid seoj deoj esv opc props)).

(** [except Exception: ... return None] *)
Definition parse_echonet_response (data : bytes) : result (option frame) :=
  match parse_body data with
  | Ok r => Ok r
  | Raise _ => Ok None
  end.

End Codec.

(** ** Property formatter *)

Section Formatter.
Local Open Scope result_scope.

(** The [if]/[elif] chain of [format_property_value]: [Some s] when a
    branch returns [s], [None] when control falls out of the chain. *)
Definition format_dispatch (epc : Z) (edt : bytes) : result (option string) :=
  if epc =? EPC_OPERATIONAL_STATUS then
    b0 <- bgetitem edt 0 ;;
    Ok (Some (if b0 =? 0x30 then "ON" else "OFF"))
  else if epc =? EPC_MANUFACTURER_CODE then
    Ok (Some ("Manufacturer: " ++ hexlify edt)%string)
  else if epc =? EPC_POWER_CONSUMPTION then
    if len edt >=? 2
    then s <- str_int (from_bytes_big edt) ;; Ok (Some (s ++ " W")%string)
    else Ok None
  else if epc =? EPC_CUMULATIVE_POWER then
    if len edt >=? 4
    then s <- str_int (from_bytes_big edt) ;; Ok (Some (s ++ " kWh")%string)
    else Ok None
  else if epc =? EPC_INSTANTANEOUS_POWER then
    if len edt >=? 2
    then s <- str_int (from_bytes_big edt) ;; Ok (Some (s ++ " W")%string)
    else Ok None
  else if epc =? EPC_BATTERY_CHARGE_DISCHARGE then
    if len edt >=? 2 then
      let val := from_bytes_big_signed edt in
      if val >=? 0
      then s <- str_int val ;; Ok (Some ("Charging: " ++ s ++ " W")%string)
      else s <- str_int (- val) ;; Ok (Some ("Discharging: " ++ s ++ " W")%string)
    else Ok None
  else Ok None.

(** The body of the [try] block: the chain, then the default. *)
Definition format_body (epc : Z) (edt : bytes) : result string :=
  r <- format_dispatch epc edt ;;
  match r with
  | Some s => Ok s
  | None => Ok ("Raw: " ++ hexlify edt)%string
  end.

(** [except Exception as e: return f"Error formatting: {e}"] *)
Definition format_property_value (epc : Z) (edt : bytes) : result string :=
  match format_body epc edt with
  | Ok s => Ok s
  | Raise e => Ok ("Error formatting: " ++ exn_str e)%string
  end.

End Formatter.

(** ** The sweep *)

(** One entry of [successful_readings]:
    [(device_name, f"EPC 0x{epc:02X}", formatted_value)]. *)
Definition reading : Type := string * string * string.

Definition address : Type := string * Z.

(** What the sweep cannot decide itself.  The [n]-th request of a run is
    the one made after [n] earlier calls of [sendto]. *)
Record world : Type := mkWorld {
  (** [int(time.time() * 1000)] when the [n]-th request is built *)
  clock_ms : nat -> Z;
  (** the exception [sendto] raises for the [n]-th request, if any *)
  sendto_raises : nat -> option exn;
  (** what [recvfrom] does after the [n]-th request: a datagram and its
      sender, [socket.timeout], or another exception *)
  recvfrom_result : nat -> result (bytes * address)
}.

(** The mutable state of one run: the list [successful_readings], and the
    calls of [sendto] made so far, oldest first. *)
Record pstate : Type := mkState {
  sent : list (bytes * address);
  successful_readings : list reading
}.

Definition initial_state : pstate := mkState [] [].

(** Computations that read and change the state and may raise; the state
    reached when the exception was raised is kept. *)
Definition M (A : Type) : Type := pstate -> result A * pstate.

Definition ret {A} (a : A) : M A := fun s => (Ok a, s).

Definition bind {A B} (m : M A) (k : A -> M B) : M B :=
  fun s =>
    match m s with
    | (Ok a, s') => k a s'
    | (Raise e, s') => (Raise e, s')
    end.

Definition lift {A} (r : result A) : M A := fun s => (r, s).

(** [try: body / except <catches>: handler] *)
Definition try_except {A} (body : M A) (catches : exn -> bool)
    (handler : exn -> M A) : M A :=
  fun s =>
    match body s with
    | (Ok a, s') => (Ok a, s')
    | (Raise e, s') => if catches e then handler e s' else (Raise e, s')
    end.

(** [for x in xs: body] *)
Fixpoint for_each {A} (xs : list A) (body : A -> M unit) : M unit :=
  match xs with
  | [] => ret tt
  | x :: xs' => bind (body x) (fun _ => for_each xs' body)
  end.

Declare Scope prog_scope.
Delimit Scope prog_scope with prog.
Notation "x <- m ;; k" := (bind m (fun x => k))
  (at level 61, m at next level, right associativity) : prog_scope.
Notation "m ;; k" := (bind m (fun _ => k))
  (at level 61, right associativity) : prog_scope.

Definition is_timeout (e : exn) : bool :=
  match e with
  | SocketTimeout => true
  | _ => false
  end.

(** [except Exception] *)
Definition any_exception (e : exn) : bool := true.

Definition device_types : list (Z * Z * Z * string) :=
  [ (0x02, 0x7D, 0x01, "Storage Battery");
    (0x02, 0x79, 0x01, "Home Solar Power");
    (0x02, 0x88, 0x01, "Smart Electric Energy Meter");
    (0x05, 0xFF, 0x01, "Controller");
    (0x00, 0x11, 0x01, "Temperature Sensor") ].

Definition property_sets : list (list (list Z)) :=
  [ [ [EPC_OPERATIONAL_STATUS; 0];
      [EPC_INSTALLATION_LOCATION; 0];
      [EPC_MANUFACTURER_CODE; 0] ];
    [ [EPC_POWER_CONSUMPTION; 0];
      [EPC_CUMULATIVE_POWER; 0] ];
    [ [EPC_INSTANTANEOUS_POWER; 0];
      [EPC_BATTERY_CHARGE_DISCHARGE; 0] ] ].

Section Prober.
Variable w : world.
Local Open Scope prog_scope.

(** [int(time.time() * 1000)] *)
Definition time_ms : M Z :=
  fun s => (Ok (clock_ms w (List.length (sent s))), s).

(** [sock.sendto(packet, (host, port))] *)
Definition sendto (packet : bytes) (dest : address) : M unit :=
  fun s =>
    let s' := mkState (sent s ++ [(packet, dest)]) (successful_readings s) in
    match sendto_raises w (List.length (sent s)) with
    | None => (Ok tt, s')
    | Some e => (Raise e, s')
    end.

(** [sock.recvfrom(bufsize)]: the answer to the latest request, cut to
    the buffer size. *)
Definition recvfrom (bufsize : Z) : M (bytes * address) :=
  fun s =>
    match recvfrom_result w (Nat.pred (List.length (sent s))) with
    | Ok (response, addr) => (Ok (slice response 0 bufsize, addr), s)
    | Raise e => (Raise e, s)
    end.

(** [successful_readings.append(r)] *)
Definition append_reading (r : reading) : M unit :=
  fun s => (Ok tt, mkState (sent s) (successful_readings s ++ [r])).

(** The body of [for prop in parsed['props']]. *)
Definition process_property (device_name : string) (prop : property) : M unit :=
  let '(epc, pdc, edt) := prop in
  formatted_value <- lift (format_property_value epc edt) ;;
  if pdc >? 0
  then append_reading
         (device_name, ("EPC 0x" ++ format_02X epc)%string, formatted_value)
  else ret tt.

(** The body of [for prop_set in property_sets]. *)
Definition probe_pair (host : string) (port : Z)
    (device : Z * Z * Z * string) (prop_set : list (list Z)) : M unit :=
  let '(eojgc, eojcc, eojci, device_name) := device in
  now <- time_ms ;;
  let tid := Z.land now 0xFFFF in
  packet <- lift (create_echonet_packet tid eojgc eojcc eojci 0x62 prop_set) ;;
  try_except
    (sendto packet (host, port) ;;
     try_except
       (received <- recvfrom 1024 ;;
        let '(response, addr) := received in
        parsed <- lift (parse_echonet_response response) ;;
        match parsed with
        | Some fr => for_each (props fr) (process_property device_name)
        | None => ret tt
        end)
       is_timeout (fun _ => ret tt))
    any_exception (fun _ => ret tt).

Definition probe_echonet_device (host : string) (port : Z) : M bool :=
  for_each device_types (fun device =>
    for_each property_sets (fun prop_set =>
      probe_pair host port device prop_set)) ;;
  fun s =>
    match successful_readings s with
    | _ :: _ => (Ok true, s)
    | [] => (Ok false, s)
    end.

(** [main], after argument parsing. *)
Definition main (host : string) (port : Z) : M Z :=
  result <- probe_echonet_device host port ;;
  ret (if result : bool then 0 else 1).

End Prober.

(** [sys.exit(asyncio.run(main()))]: the exit status of the process; an
    exception that escapes [main] ends the interpreter with status 1. *)
Definition exit_status (w : world) (host : string) (port : Z) : Z :=
  match fst (main w host port initial_state) with
  | Ok exit_code => exit_code
  | Raise _ => 1
  end.

(** ** Reference views of the codec, used to state the properties *)

(** The byte an in-range integer is stored as. *)
Definition to_byte (n : Z) : byte :=
  match Byte.of_N (Z.to_N n) with
  | Some b => b
  | None => Byte.x00
  end.

(** The argument [create_echonet_packet] takes for a property: the
    sequence [epc, pdc, edt...]. *)
Definition prop_args (p : property) : list Z :=
  let '(epc, pdc, edt) := p in epc :: pdc :: map int_of_byte edt.

(** A property as the Frame of the data model has it: an 8-bit code and
    a payload of at most 255 bytes whose length is the declared one. *)
Definition wf_property (p : property) : Prop :=
  let '(epc, pdc, edt) := p in 0 <= epc < 256 /\ pdc = len edt /\ pdc <= 255.

Definition is_byte (n : Z) : Prop := 0 <= n < 256.

(** The bytes of a property on the wire. *)
Definition wire_property (p : property) : bytes :=
  let '(epc, pdc, edt) := p in to_byte epc :: to_byte pdc :: edt.

Definition wire_properties (ps : list property) : bytes :=
  flat_map wire_property ps.

(** The twelve header bytes of a request. *)
Definition wire_header (tid eojgc eojcc eojci esv opc : Z) : bytes :=
  [ Byte.x10; Byte.x81;
    to_byte (Z.land (Z.shiftr tid 8) 0xFF); to_byte (Z.land tid 0xFF);
    Byte.x05; Byte.xff; Byte.x01;
    to_byte eojgc; to_byte eojcc; to_byte eojci;
    to_byte esv; to_byte opc ].

(** The property loop of the parser read off the bytes that follow the
    header: at most [n] properties, stopping at the first one that is
    not whole. *)
Fixpoint scan_properties (n : nat) (rest : bytes) : list property :=
  match n with
  | O => []
  | S n' =>
      match rest with
      | e :: p :: tl =>
          let pdc := Z.to_nat (int_of_byte p) in
          if (pdc <=? List.length tl)%nat
          then (int_of_byte e, int_of_byte p, firstn pdc tl)
                 :: scan_properties n' (skipn pdc tl)
          else []
      | _ => []
      end
  end.

(** The properties of [ps], encoded one after the other from offset
    [start] on, whose code byte, length byte and payload all lie before
    offset [cut]. *)
Fixpoint fully_present (cut start : nat) (ps : list property) : list property :=
  match ps with
  | [] => []
  | p :: rest =>
      let stop := (start + 2 + List.length (snd p))%nat in
      (if (stop <=? cut)%nat then [p] else []) ++ fully_present cut stop rest
  end.

(** The codes [format_property_value] has a branch for. *)
Definition recognized (epc : Z) : bool :=
  existsb (Z.eqb epc)
    [ EPC_OPERATIONAL_STATUS; EPC_MANUFACTURER_CODE; EPC_POWER_CONSUMPTION;
      EPC_CUMULATIVE_POWER; EPC_INSTANTANEOUS_POWER; EPC_BATTERY_CHARGE_DISCHARGE ].

(** The number of payload bytes the branch of a code needs: the byte
    [edt[0]] for the operational status, the length the branch tests for
    the numeric codes, none for the manufacturer code. *)
Definition expected_width (epc : Z) : Z :=
  if epc =? EPC_OPERATIONAL_STATUS then 1
  else if epc =? EPC_POWER_CONSUMPTION then 2
  else if epc =? EPC_CUMULATIVE_POWER then 4
  else if epc =? EPC_INSTANTANEOUS_POWER then 2
  else if epc =? EPC_BATTERY_CHARGE_DISCHARGE then 2
  else 0.

(** The codes whose branch tests the length of the payload. *)
Definition length_guarded (epc : Z) : bool :=
  existsb (Z.eqb epc)
    [ EPC_POWER_CONSUMPTION; EPC_CUMULATIVE_POWER; EPC_INSTANTANEOUS_POWER;
      EPC_BATTERY_CHARGE_DISCHARGE ].

(** ** Reference view of the sweep *)

(** The string the formatter returns. *)
Definition formatted (epc : Z) (edt : bytes) : string :=
  match format_property_value epc edt with
  | Ok s => s
  | Raise _ => ""
  end.

(** The Reading a response property gives for a device. *)
Definition reading_of (device_name : string) (p : property) : reading :=
  let '(epc, _, edt) := p in
  (device_name, ("EPC 0x" ++ format_02X epc)%string, formatted epc edt).

(** The payload of the property is not empty. *)
Definition has_payload (p : property) : bool :=
  let '(_, _, edt) := p in negb (Nat.eqb (List.length edt) 0).

(** One Reading per property with a payload, in the order of the
    properties. *)
Definition frame_readings (device_name : string) (fr : frame) : list reading :=
  map (reading_of device_name) (filter has_payload (props fr)).

(** The pairs of the two catalogues, device by device and, for a
    device, property group by property group. *)
Definition catalogue_pairs : list ((Z * Z * Z * string) * list (list Z)) :=
  list_prod device_types property_sets.

(** An attempt: a pair with its position in the run. *)
Definition attempt : Type := nat * ((Z * Z * Z * string) * list (list Z)).

Definition attempts : list attempt :=
  combine (seq 0 (List.length catalogue_pairs)) catalogue_pairs.

(** The Get request (service 0x62) for a pair, with the transaction id
    read off the clock when the attempt is made. *)
Definition request_packet (w : world) (a : attempt) : result bytes :=
  let '(n, (eojgc, eojcc, eojci, _, prop_set)) := a in
  create_echonet_packet (Z.land (clock_ms w n) 0xFFFF) eojgc eojcc eojci 0x62 prop_set.

Definition request_bytes (w : world) (a : attempt) : bytes :=
  match request_packet w a with
  | Ok packet => packet
  | Raise _ => []
  end.

(** The call of [sendto] an attempt makes. *)
Definition sent_entry (w : world) (host : string) (port : Z) (a : attempt)
    : bytes * address :=
  (request_bytes w a, (host, port)).

(** The Readings an attempt gives: none when sending or receiving
    raises (a timeout included) or when the answer is shorter than a
    header, else those of the decoded answer. *)
Definition attempt_readings (w : world) (a : attempt) : list reading :=
  let '(n, (_, _, _, device_name, _)) := a in
  match sendto_raises w n with
  | Some _ => []
  | None =>
      match recvfrom_result w n with
      | Raise _ => []
      | Ok (response, _) =>
          match parse_echonet_response (slice response 0 1024) with
          | Ok (Some fr) => frame_readings device_name fr
          | _ => []
          end
      end
  end.

(** The state a run ends in. *)
Definition sweep_state (w : world) (host : string) (port : Z) : pstate :=
  mkState (map (sent_entry w host port) attempts)
          (flat_map (attempt_readings w) attempts).

(** The properties of the catalogue groups as decoded properties. *)
Definition property_sets_decoded : list (list property) :=
  [ [ (EPC_OPERATIONAL_STATUS, 0, []);
      (EPC_INSTALLATION_LOCATION, 0, []);
      (EPC_MANUFACTURER_CODE, 0, []) ];
    [ (EPC_POWER_CONSUMPTION, 0, []);
      (EPC_CUMULATIVE_POWER, 0, []) ];
    [ (EPC_INSTANTANEOUS_POWER, 0, []);
      (EPC_BATTERY_CHARGE_DISCHARGE, 0, []) ] ].

(** A device that answers only the basic properties of the smart meter
    (the seventh attempt), with status ON, an empty installation
    location and a power of 150; every other attempt times out. *)
Definition meter_only : world :=
  mkWorld
    (fun n => 1700000000000 + 500 * Z.of_nat n)
    (fun _ => None)
    (fun n =>
       if Nat.eqb n 6
       then Ok ([ Byte.x10; Byte.x81; Byte.x00; Byte.x01; Byte.x02; Byte.x88;
                  Byte.x01; Byte.x05; Byte.xff; Byte.x01; Byte.x72; Byte.x03;
                  Byte.x80; Byte.x01; Byte.x30;
                  Byte.x81; Byte.x00;
                  Byte.x84; Byte.x02; Byte.x00; Byte.x96 ],
                ("192.168.1.20", 3610))
       else Raise SocketTimeout).

(** ** Further reference views *)

(** A property sequence the encoder accepts: at least a code and a
    declared length, both bytes, and, when the declared length is
    positive, payload elements that are bytes. *)
Definition prop_encodable (prop : list Z) : Prop :=
  match prop with
  | epc :: pdc :: edt =>
      is_byte epc /\ is_byte pdc /\ (pdc > 0 -> Forall is_byte edt)
  | _ => False
  end.

(** The number of bytes the encoder writes for a property sequence. *)
Definition encoded_size (prop : list Z) : Z :=
  match prop with
  | _ :: pdc :: edt => 2 + (if pdc >? 0 then len edt else 0)
  | _ => 0
  end.

(** The sum of a list of integers. *)
Definition total (xs : list Z) : Z := fold_right Z.add 0 xs.

(** [xs] starts with [ys]. *)
Definition starts_with {A} (xs ys : list A) : Prop := exists more, xs = ys ++ more.

(** The names of the device catalogue. *)
Definition device_names : list string :=
  map (fun d : Z * Z * Z * string => snd d) device_types.

(** A world in which every receive times out. *)
Definition silent : world :=
  mkWorld (fun n => 1700000000000 + 500 * Z.of_nat n)
          (fun _ => None)
          (fun _ => Raise SocketTimeout).

(** A device that answers every datagram with the first request of the
    run. *)
Definition echoing : world :=
  mkWorld (clock_ms silent)
          (fun _ => None)
          (fun _ =>
             Ok (request_bytes silent
                   (0%nat, (0x02, 0x7D, 0x01, "Storage Battery",
                            [ [EPC_OPERATIONAL_STATUS; 0];
                              [EPC_INSTALLATION_LOCATION; 0];
                              [EPC_MANUFACTURER_CODE; 0] ])),
                 ("192.168.1.20", 3610))).

(** The integer a numeric branch of the formatter renders in decimal,
    when the code and the payload lead to one: the unsigned value of
    the payload for the power codes, the absolute value of its signed
    value for the charge/discharge code. *)
Definition rendered_integer (epc : Z) (edt : bytes) : option Z :=
  if epc =? EPC_POWER_CONSUMPTION then
    if len edt >=? 2 then Some (from_bytes_big edt) else None
  else if epc =? EPC_CUMULATIVE_POWER then
    if len edt >=? 4 then Some (from_bytes_big edt) else None
  else if epc =? EPC_INSTANTANEOUS_POWER then
    if len edt >=? 2 then Some (from_bytes_big edt) else None
  else if epc =? EPC_BATTERY_CHARGE_DISCHARGE then
    if len edt >=? 2 then Some (Z.abs (from_bytes_big_signed edt)) else None
  else None.

(** A payload of 1786 bytes 0xFF: a number of 4301 digits. *)
Definition long_payload : bytes := repeat Byte.xff 1786.

(** * Properties *)

(** ** Bytes and integers *)

Lemma int_of_byte_range (b : byte) : 0 <= int_of_byte b < 256.
Proof.
  unfold int_of_byte. pose proof (Byte.to_N_bounded b). lia.
Qed.

Lemma byte_of_int_of_byte (b : byte) : byte_of_int (int_of_byte b) = Ok b.
Proof.
  unfold byte_of_int. pose proof (int_of_byte_range b) as R.
  replace ((0 <=? int_of_byte b) && (int_of_byte b <? 256)) with true
    by (symmetry; apply andb_true_iff; split; [apply Z.leb_le | apply Z.ltb_lt]; lia).
  unfold int_of_byte. rewrite N2Z.id, Byte.of_to_N. reflexivity.
Qed.

Lemma byte_of_int_ok (n : Z) :
  0 <= n < 256 -> byte_of_int n = Ok (to_byte n) /\ int_of_byte (to_byte n) = n.
Proof.
  intros R. unfold byte_of_int, to_byte.
  replace ((0 <=? n) && (n <? 256)) with true
    by (symmetry; apply andb_true_iff; split; [apply Z.leb_le | apply Z.ltb_lt]; lia).
  destruct (Byte.of_N (Z.to_N n)) as [b|] eqn:E.
  - split; [reflexivity|].
    apply Byte.to_of_N in E. unfold int_of_byte. rewrite E. lia.
  - apply Byte.of_N_None_iff in E. lia.
Qed.

Lemma bytearray_of_bytes (bs : bytes) : bytearray (map int_of_byte bs) = Ok bs.
Proof.
  induction bs as [|b bs IH]; simpl; [reflexivity|].
  rewrite byte_of_int_of_byte. simpl. rewrite IH. reflexivity.
Qed.

Lemma bytearray_ok (xs : list Z) :
  Forall (fun x => 0 <= x < 256) xs -> bytearray xs = Ok (map to_byte xs).
Proof.
  induction 1 as [|x xs Hx _ IH]; simpl; [reflexivity|].
  destruct (byte_of_int_ok x Hx) as [-> _]. simpl. rewrite IH. reflexivity.
Qed.

Lemma len_nonneg {A} (xs : list A) : 0 <= len xs.
Proof. unfold len. lia. Qed.

Lemma len_zero_nil {A} (xs : list A) : len xs = 0 -> xs = [].
Proof. destruct xs; [reflexivity | unfold len; simpl; lia]. Qed.

(** Two bytes joined the way the parser joins them are the big-endian
    16-bit number, and both bytes can be read back from it. *)
Lemma lor_shiftl_8 (a b : Z) :
  0 <= a -> 0 <= b < 256 -> Z.lor (Z.shiftl a 8) b = a * 256 + b.
Proof.
  intros Ha Hb.
  assert (D : Z.land (Z.shiftl a 8) b = 0).
  { apply Z.bits_inj'. intros n Hn.
    rewrite Z.land_spec, Z.bits_0.
    destruct (Z.ltb_spec n 8) as [L|L].
    - rewrite Z.shiftl_spec_low by lia. reflexivity.
    - replace (Z.testbit b n) with false; [apply andb_false_r|].
      symmetry. apply Z.bits_above_log2; [lia|].
      destruct (Z.eq_dec b 0) as [->|Nz]; [simpl; lia|].
      apply Z.log2_lt_pow2; [lia|].
      apply Z.lt_le_trans with (2 ^ 8); [lia|].
      apply Z.pow_le_mono_r; lia. }
  rewrite <- Z.lxor_lor by exact D.
  rewrite <- Z.add_nocarry_lxor by exact D.
  rewrite Z.shiftl_mul_pow2 by lia. reflexivity.
Qed.

Lemma land_255 (a : Z) : Z.land a 0xFF = a mod 256.
Proof. change 0xFF with (Z.ones 8). rewrite Z.land_ones by lia. reflexivity. Qed.

Lemma shiftr_8 (a : Z) : Z.shiftr a 8 = a / 256.
Proof. rewrite Z.shiftr_div_pow2 by lia. reflexivity. Qed.

(** ** The parser *)

Lemma skipn_two {A} (i : nat) (data : list A) (e p : A) (tl : list A) :
  skipn i data = e :: p :: tl ->
  nth_error data i = Some e /\ nth_error data (S i) = Some p /\
  skipn (S (S i)) data = tl /\ List.length data = (i + 2 + List.length tl)%nat.
Proof.
  revert data. induction i as [|i IH]; intros data E.
  - simpl in E. subst data. simpl. repeat split; lia.
  - destruct data as [|x data]; [discriminate|].
    simpl in E. destruct (IH _ E) as (H1 & H2 & H3 & H4).
    repeat split; simpl; try assumption. lia.
Qed.

Lemma bgetitem_nth (data : bytes) (i : Z) (b : byte) :
  0 <= i -> nth_error data (Z.to_nat i) = Some b ->
  bgetitem data i = Ok (int_of_byte b).
Proof.
  intros Hi E. unfold bgetitem.
  destruct (Z.ltb_spec i 0); [lia|]. rewrite E. reflexivity.
Qed.

(** The loop of the parser never raises, and what it returns is the scan
    of the bytes from [idx] on. *)
Lemma parse_properties_scan (n : nat) :
  forall (data : bytes) (idx : Z) (acc : list property),
    0 <= idx <= len data ->
    parse_properties n data idx acc
    = Ok (acc ++ scan_properties n (skipn (Z.to_nat idx) data)).
Proof.
  induction n as [|n IH]; intros data idx acc Hidx.
  - simpl. rewrite app_nil_r. reflexivity.
  - cbn [parse_properties scan_properties].
    pose proof (length_skipn (Z.to_nat idx) data) as L.
    unfold len in *.
    destruct (skipn (Z.to_nat idx) data) as [|e [|p tl]] eqn:E.
    + simpl in L.
      destruct (Z.gtb_spec (idx + 2) (Z.of_nat (List.length data))); [|lia].
      rewrite app_nil_r. reflexivity.
    + simpl in L.
      destruct (Z.gtb_spec (idx + 2) (Z.of_nat (List.length data))); [|lia].
      rewrite app_nil_r. reflexivity.
    + destruct (skipn_two _ _ _ _ _ E) as (N0 & N1 & Sk & Ln).
      destruct (Z.gtb_spec (idx + 2) (Z.of_nat (List.length data))); [lia|].
      rewrite (bgetitem_nth data idx e) by (assumption || lia).
      rewrite (bgetitem_nth data (idx + 1) p)
        by (try lia; replace (Z.to_nat (idx + 1)) with (S (Z.to_nat idx)) by lia;
            assumption).
      cbn [rbind].
      pose proof (int_of_byte_range p) as Rp.
      destruct (Nat.leb_spec (Z.to_nat (int_of_byte p)) (List.length tl)) as [Fit|Cut].
      * destruct (Z.gtb_spec (idx + 2 + int_of_byte p) (Z.of_nat (List.length data)));
          [lia|].
        rewrite IH by (unfold len; lia).
        rewrite <- app_assoc. cbn [app].
        unfold slice.
        replace (Z.to_nat (idx + 2 + int_of_byte p - (idx + 2)))
          with (Z.to_nat (int_of_byte p)) by lia.
        replace (Z.to_nat (idx + 2)) with (S (S (Z.to_nat idx))) by lia.
        replace (Z.to_nat (idx + 2 + int_of_byte p))
          with (Z.to_nat (int_of_byte p) + S (S (Z.to_nat idx)))%nat by lia.
        rewrite <- skipn_skipn, Sk. reflexivity.
      * destruct (Z.gtb_spec (idx + 2 + int_of_byte p) (Z.of_nat (List.length data)));
          [|lia].
        rewrite app_nil_r. reflexivity.
Qed.

(** Less than twelve bytes: Python's [None]. *)
Lemma parse_short (data : bytes) :
  len data < 12 -> parse_echonet_response data = Ok None.
Proof.
  intros H. unfold parse_echonet_response, parse_body.
  destruct (Z.ltb_spec (len data) 12); [reflexivity | lia].
Qed.

(** Twelve bytes or more: the frame read off the header, with the scan
    of what follows it. *)
Lemma parse_long (d0 d1 d2 d3 d4 d5 d6 d7 d8 d9 d10 d11 : byte) (rest : bytes) :
  parse_echonet_response
    (d0 :: d1 :: d2 :: d3 :: d4 :: d5 :: d6 :: d7 :: d8 :: d9 :: d10 :: d11 :: rest)
  = Ok (Some (mkFrame
                (Z.lor (Z.shiftl (int_of_byte d0) 8) (int_of_byte d1))
                (Z.lor (Z.shiftl (int_of_byte d2) 8) (int_of_byte d3))
                (int_of_byte d4, int_of_byte d5, int_of_byte d6)
                (int_of_byte d7, int_of_byte d8, int_of_byte d9)
                (int_of_byte d10) (int_of_byte d11)
                (scan_properties (Z.to_nat (int_of_byte d11)) rest))).
Proof.
  unfold parse_echonet_response, parse_body.
  set (data := d0 :: d1 :: d2 :: d3 :: d4 :: d5 :: d6 :: d7 :: d8 :: d9
                  :: d10 :: d11 :: rest).
  assert (L : len data = 12 + len rest)
    by (unfold len, data; cbn [List.length]; lia).
  pose proof (len_nonneg rest) as Lr.
  destruct (Z.ltb_spec (len data) 12); [lia|].
  rewrite (bgetitem_nth data 0 d0), (bgetitem_nth data 1 d1),
    (bgetitem_nth data 2 d2), (bgetitem_nth data 3 d3),
    (bgetitem_nth data 4 d4), (bgetitem_nth data 5 d5),
    (bgetitem_nth data 6 d6), (bgetitem_nth data 7 d7),
    (bgetitem_nth data 8 d8), (bgetitem_nth data 9 d9),
    (bgetitem_nth data 10 d10), (bgetitem_nth data 11 d11)
    by (try lia; reflexivity).
  cbn [rbind].
  rewrite parse_properties_scan by lia.
  reflexivity.
Qed.

Lemma long_shape (data : bytes) :
  12 <= len data ->
  exists d0 d1 d2 d3 d4 d5 d6 d7 d8 d9 d10 d11 rest,
    data = d0 :: d1 :: d2 :: d3 :: d4 :: d5 :: d6 :: d7 :: d8 :: d9
              :: d10 :: d11 :: rest.
Proof.
  unfold len. intros H.
  do 12 (destruct data as [|? data]; [simpl in H; lia|]).
  repeat eexists.
Qed.

Lemma scan_properties_length (n : nat) :
  forall rest, (List.length (scan_properties n rest) <= n)%nat.
Proof.
  induction n as [|n IH]; intros rest; simpl; [lia|].
  destruct rest as [|e [|p tl]]; simpl; try lia.
  destruct (Nat.leb_spec (Z.to_nat (int_of_byte p)) (List.length tl)); simpl; [|lia].
  specialize (IH (skipn (Z.to_nat (int_of_byte p)) tl)). lia.
Qed.

(** In a scanned property the declared length is the length of the
    payload. *)
Lemma scan_properties_pdc (n : nat) :
  forall rest,
    Forall (fun p : property => let '(_, pdc, edt) := p in pdc = len edt)
           (scan_properties n rest).
Proof.
  induction n as [|n IH]; intros rest; simpl; [constructor|].
  destruct rest as [|e [|p tl]]; try constructor.
  destruct (Nat.leb_spec (Z.to_nat (int_of_byte p)) (List.length tl)); constructor.
  - unfold len. rewrite length_firstn.
    pose proof (int_of_byte_range p). lia.
  - apply IH.
Qed.

(** ** The encoder *)

Lemma add_properties_wire (ps : list property) :
  forall packet : bytes,
    Forall wf_property ps ->
    add_properties packet (map prop_args ps) = Ok (packet ++ wire_properties ps).
Proof.
  induction ps as [|[[epc pdc] edt] ps IH]; intros packet Hwf.
  - simpl. rewrite app_nil_r. reflexivity.
  - inversion Hwf as [|? ? Hp Hrest]; subst.
    destruct Hp as (Hepc & Hpdc & Hmax). subst pdc.
    cbn [map prop_args add_properties].
    change (getitem (epc :: len edt :: map int_of_byte edt) 0) with (Ok epc).
    change (getitem (epc :: len edt :: map int_of_byte edt) 1) with (Ok (len edt)).
    change (slice_from (epc :: len edt :: map int_of_byte edt) 2)
      with (map int_of_byte edt).
    cbn [rbind]. unfold extend.
    pose proof (len_nonneg edt) as Hlen.
    rewrite (bytearray_ok [epc; len edt])
      by (repeat constructor; unfold is_byte; lia).
    cbn [rbind map].
    assert (Hgoal : forall body : bytes,
               body = (packet ++ [to_byte epc; to_byte (len edt)]) ++ edt ->
               add_properties body (map prop_args ps)
               = Ok (packet ++ wire_properties ((epc, len edt, edt) :: ps))).
    { intros body ->. rewrite IH by assumption.
      unfold wire_properties. cbn [flat_map wire_property].
      rewrite <- !app_assoc. reflexivity. }
    destruct (Z.gtb_spec (len edt) 0) as [Pos|Zero].
    + rewrite bytearray_of_bytes. cbn [rbind]. apply Hgoal. reflexivity.
    + cbn [rbind]. apply Hgoal.
      rewrite (len_zero_nil edt) by lia. rewrite app_nil_r. reflexivity.
Qed.

Lemma create_wire (tid eojgc eojcc eojci esv : Z) (ps : list property) :
  is_byte eojgc -> is_byte eojcc -> is_byte eojci -> is_byte esv ->
  (List.length ps <= 255)%nat ->
  Forall wf_property ps ->
  create_echonet_packet tid eojgc eojcc eojci esv (map prop_args ps)
  = Ok (wire_header tid eojgc eojcc eojci esv (len ps) ++ wire_properties ps).
Proof.
  unfold is_byte. intros Hg Hc Hi He Hn Hwf.
  unfold create_echonet_packet.
  assert (Hlen : len (map prop_args ps) = len ps)
    by (unfold len; rewrite length_map; reflexivity).
  rewrite Hlen.
  rewrite bytearray_ok.
  - cbn [rbind]. rewrite add_properties_wire by assumption. reflexivity.
  - rewrite !land_255.
    pose proof (Z.mod_pos_bound (Z.shiftr tid 8) 256 eq_refl).
    pose proof (Z.mod_pos_bound tid 256 eq_refl).
    unfold len. repeat constructor; lia.
Qed.

(** ** Scanning encoded properties, whole or cut short *)

Lemma fully_present_nil (ps : list property) :
  forall cut start, (cut < start)%nat -> fully_present cut start ps = [].
Proof.
  induction ps as [|p ps IH]; intros cut start H; [reflexivity|].
  cbn [fully_present].
  destruct (Nat.leb_spec (start + 2 + List.length (snd p)) cut); [lia|].
  rewrite IH by lia. reflexivity.
Qed.

Lemma fully_present_prefix (ps : list property) :
  forall cut start, exists k, fully_present cut start ps = firstn k ps.
Proof.
  induction ps as [|p ps IH]; intros cut start.
  - exists 0%nat. reflexivity.
  - cbn [fully_present].
    destruct (Nat.leb_spec (start + 2 + List.length (snd p)) cut) as [In|Out].
    + destruct (IH cut (start + 2 + List.length (snd p))%nat) as [k Hk].
      exists (S k). rewrite Hk. reflexivity.
    + exists 0%nat. rewrite fully_present_nil by lia. reflexivity.
Qed.

Lemma fully_present_all (ps : list property) :
  forall cut start,
    (start + List.length (wire_properties ps) <= cut)%nat ->
    fully_present cut start ps = ps.
Proof.
  induction ps as [|[[epc pdc] edt] ps IH]; intros cut start H; [reflexivity|].
  unfold wire_properties in H. cbn [flat_map wire_property] in H.
  cbn [List.length app] in H. rewrite length_app in H.
  cbn [fully_present snd].
  destruct (Nat.leb_spec (start + 2 + List.length edt) cut); [|lia].
  rewrite IH by (unfold wire_properties; lia). reflexivity.
Qed.

Lemma scan_properties_nil (n : nat) : scan_properties n [] = [].
Proof. destruct n; reflexivity. Qed.

(** Scanning the first [m] bytes of encoded properties finds the
    properties that end within those [m] bytes. *)
Lemma scan_wire_cut (ps : list property) :
  forall (n m start : nat),
    Forall wf_property ps ->
    (List.length ps <= n)%nat ->
    scan_properties n (firstn m (wire_properties ps))
    = fully_present (start + m) start ps.
Proof.
  induction ps as [|[[epc pdc] edt] ps IH]; intros n m start Hwf Hn.
  - cbn [wire_properties flat_map]. rewrite firstn_nil.
    apply scan_properties_nil.
  - inversion Hwf as [|? ? Hp Hrest]; subst.
    destruct Hp as (Hepc & Hpdc & Hmax). subst pdc.
    destruct n as [|n]; [simpl in Hn; lia|].
    pose proof (len_nonneg edt) as Hlen.
    assert (Hnat : Z.to_nat (int_of_byte (to_byte (len edt))) = List.length edt).
    { destruct (byte_of_int_ok (len edt)) as [_ ->]; unfold len in *; lia. }
    unfold wire_properties. cbn [flat_map wire_property fully_present snd].
    fold (wire_properties ps).
    destruct (Nat.leb_spec (start + 2 + List.length edt) (start + m)) as [In|Out].
    + destruct m as [|[|m]]; try lia.
      cbn [app firstn scan_properties].
      rewrite firstn_app.
      rewrite (firstn_all2 edt) by lia.
      rewrite Hnat, length_app, length_firstn.
      destruct (Nat.leb_spec (List.length edt)
                  (List.length edt
                   + Nat.min (m - List.length edt) (List.length (wire_properties ps))));
        [|lia].
      rewrite firstn_app, Nat.sub_diag, firstn_all, firstn_O, app_nil_r.
      rewrite skipn_app, skipn_all, Nat.sub_diag. cbn [app skipn].
      destruct (byte_of_int_ok epc Hepc) as [_ ->].
      destruct (byte_of_int_ok (len edt)) as [_ ->]; [lia|].
      rewrite (IH n (m - List.length edt)%nat (start + 2 + List.length edt)%nat)
        by (assumption || (simpl in Hn; lia)).
      replace (start + 2 + List.length edt + (m - List.length edt))%nat
        with (start + S (S m))%nat by lia.
      reflexivity.
    + rewrite fully_present_nil by lia. cbn [app].
      destruct m as [|[|m]]; try reflexivity.
      cbn [app firstn scan_properties].
      rewrite Hnat, length_firstn, length_app.
      destruct (Nat.leb_spec (List.length edt)
                  (Nat.min m (List.length edt + List.length (wire_properties ps))));
        [lia | reflexivity].
Qed.

Lemma scan_wire (ps : list property) :
  Forall wf_property ps ->
  scan_properties (List.length ps) (wire_properties ps) = ps.
Proof.
  intros Hwf.
  rewrite <- (firstn_all (wire_properties ps)) at 1.
  rewrite (scan_wire_cut ps _ _ 0%nat) by (assumption || lia).
  apply fully_present_all. lia.
Qed.

(** What the parser reads in the header of an encoded request. *)
Lemma header_fields (tid eojgc eojcc eojci esv opc : Z) :
  0 <= tid < 65536 ->
  is_byte eojgc -> is_byte eojcc -> is_byte eojci -> is_byte esv -> is_byte opc ->
  forall rest,
    parse_echonet_response (wire_header tid eojgc eojcc eojci esv opc ++ rest)
    = Ok (Some (mkFrame 0x1081 tid (0x05, 0xFF, 0x01) (eojgc, eojcc, eojci)
                  esv opc (scan_properties (Z.to_nat opc) rest))).
Proof.
  unfold is_byte. intros Ht Hg Hc Hi He Ho rest.
  unfold wire_header. cbn [app]. rewrite parse_long.
  rewrite !land_255, shiftr_8.
  assert (Hhi : 0 <= (tid / 256) mod 256 < 256) by (apply Z.mod_pos_bound; lia).
  assert (Hlo : 0 <= tid mod 256 < 256) by (apply Z.mod_pos_bound; lia).
  destruct (byte_of_int_ok _ Hhi) as [_ ->].
  destruct (byte_of_int_ok _ Hlo) as [_ ->].
  destruct (byte_of_int_ok _ Hg) as [_ ->].
  destruct (byte_of_int_ok _ Hc) as [_ ->].
  destruct (byte_of_int_ok _ Hi) as [_ ->].
  destruct (byte_of_int_ok _ He) as [_ ->].
  destruct (byte_of_int_ok _ Ho) as [_ ->].
  rewrite (lor_shiftl_8 ((tid / 256) mod 256) (tid mod 256)) by lia.
  replace ((tid / 256) mod 256 * 256 + tid mod 256) with tid.
  - reflexivity.
  - rewrite (Z.mod_small (tid / 256) 256)
      by (split; [apply Z.div_pos; lia | apply Z.div_lt_upper_bound; lia]).
    pose proof (Z.div_mod tid 256). lia.
Qed.

Lemma add_properties_prefix (ps : list (list Z)) :
  forall packet out : bytes,
    add_properties packet ps = Ok out -> exists tail, out = packet ++ tail.
Proof.
  induction ps as [|prop ps IH]; intros packet out H.
  - simpl in H. injection H as <-. exists []. rewrite app_nil_r. reflexivity.
  - cbn [add_properties] in H.
    destruct (getitem prop 0) as [epc|]; [|discriminate].
    destruct (getitem prop 1) as [pdc|]; [|discriminate].
    cbn [rbind] in H. unfold extend in H.
    destruct (bytearray [epc; pdc]) as [b1|]; [|discriminate].
    cbn [rbind] in H.
    destruct (pdc >? 0).
    + destruct (bytearray (slice_from prop 2)) as [b2|]; [|discriminate].
      cbn [rbind] in H. destruct (IH _ _ H) as [tail ->].
      exists (b1 ++ b2 ++ tail). rewrite !app_assoc. reflexivity.
    + cbn [rbind] in H. destruct (IH _ _ H) as [tail ->].
      exists (b1 ++ tail). rewrite !app_assoc. reflexivity.
Qed.

Lemma bytearray_cons (x : Z) (xs : list Z) (bs : bytes) :
  bytearray (x :: xs) = Ok bs ->
  exists b bs', byte_of_int x = Ok b /\ bytearray xs = Ok bs' /\ bs = b :: bs'.
Proof.
  cbn [bytearray]. intros H.
  destruct (byte_of_int x) as [b|]; [|discriminate].
  cbn [rbind] in H. destruct (bytearray xs) as [bs'|]; [|discriminate].
  cbn [rbind] in H. injection H as <-. eauto.
Qed.

(** Every packet the encoder returns starts with the marker 0x10 0x81. *)
Lemma create_marker (tid eojgc eojcc eojci esv : Z) (ps : list (list Z))
    (packet : bytes) :
  create_echonet_packet tid eojgc eojcc eojci esv ps = Ok packet ->
  exists rest, packet = Byte.x10 :: Byte.x81 :: rest.
Proof.
  unfold create_echonet_packet. intros H.
  match type of H with
  | rbind ?m _ = _ => destruct m as [hd|] eqn:E; [|discriminate]
  end.
  cbn [rbind] in H.
  apply bytearray_cons in E. destruct E as (b0 & bs0 & B0 & E & ->).
  apply bytearray_cons in E. destruct E as (b1 & bs1 & B1 & E & ->).
  injection B0 as <-. injection B1 as <-.
  destruct (add_properties_prefix _ _ _ H) as [tail ->].
  eexists. reflexivity.
Qed.

Ltac solve_wf :=
  repeat (apply Forall_cons || apply Forall_nil);
  unfold wf_property, is_byte; repeat split; vm_compute;
  (reflexivity || discriminate).

(** ** The claims about the codec *)

(** C1. For every well-formed Frame (16-bit transaction id, 8-bit
    destination identity bytes and service code, at most 255 properties,
    each with an 8-bit code and a declared length that is the length of
    its payload and at most 255), the encoder returns a packet, and the
    parser applied to that packet returns a frame with the same
    transaction id, the controller's identity (0x05, 0xFF, 0x01) as
    source, the same destination identity, service code, the number of
    properties as count, and the same properties in the same order. *)
Theorem C1_decode_encode_roundtrip
    (tid eojgc eojcc eojci esv : Z) (ps : list property) :
  0 <= tid < 65536 ->
  is_byte eojgc -> is_byte eojcc -> is_byte eojci -> is_byte esv ->
  (List.length ps <= 255)%nat ->
  Forall wf_property ps ->
  exists packet,
    create_echonet_packet tid eojgc eojcc eojci esv (map prop_args ps) = Ok packet /\
    parse_echonet_response packet
    = Ok (Some (mkFrame 0x1081 tid (0x05, 0xFF, 0x01) (eojgc, eojcc, eojci)
                  esv (len ps) ps)).
Proof.
  intros Ht Hg Hc Hi He Hn Hwf.
  eexists. split; [apply create_wire; assumption|].
  rewrite header_fields by (assumption || (unfold is_byte, len; lia)).
  unfold len at 2. rewrite Nat2Z.id, scan_wire by assumption.
  reflexivity.
Qed.

Lemma C1_roundtrip_witness :
  let ps := [(0x80, 0, []); (0x81, 2, [Byte.x07; Byte.x08])] in
  (0 <= 0x1234 < 65536 /\ is_byte 0x02 /\ is_byte 0x7D /\ is_byte 0x01 /\
   is_byte 0x62 /\ (List.length ps <= 255)%nat /\ Forall wf_property ps) /\
  exists packet,
    create_echonet_packet 0x1234 0x02 0x7D 0x01 0x62 (map prop_args ps) = Ok packet /\
    parse_echonet_response packet
    = Ok (Some (mkFrame 0x1081 0x1234 (0x05, 0xFF, 0x01) (0x02, 0x7D, 0x01)
                  0x62 (len ps) ps)).
Proof.
  intros ps.
  assert (H : 0 <= 0x1234 < 65536 /\ is_byte 0x02 /\ is_byte 0x7D /\ is_byte 0x01 /\
              is_byte 0x62 /\ (List.length ps <= 255)%nat /\ Forall wf_property ps).
  { unfold is_byte, ps. simpl. repeat split; try lia; solve_wf. }
  split; [exact H|].
  destruct H as (H1 & H2 & H3 & H4 & H5 & H6 & H7).
  exact (C1_decode_encode_roundtrip 0x1234 0x02 0x7D 0x01 0x62 ps H1 H2 H3 H4 H5 H6 H7).
Defined.

(** C2. For every well-formed Frame and every cut of at least 12 bytes,
    the parser applied to the first [cut] bytes of the encoded packet
    raises nothing and returns a frame whose properties are exactly the
    properties of the Frame whose code byte, length byte and payload lie
    before the cut; they are the first [k] properties for some [k], so
    the first property that is not whole and every later one are left
    out. *)
Theorem C2_truncated_decode
    (tid eojgc eojcc eojci esv : Z) (ps : list property) (cut : nat) :
  0 <= tid < 65536 ->
  is_byte eojgc -> is_byte eojcc -> is_byte eojci -> is_byte esv ->
  (List.length ps <= 255)%nat ->
  Forall wf_property ps ->
  (12 <= cut)%nat ->
  exists packet,
    create_echonet_packet tid eojgc eojcc eojci esv (map prop_args ps) = Ok packet /\
    parse_echonet_response (firstn cut packet)
    = Ok (Some (mkFrame 0x1081 tid (0x05, 0xFF, 0x01) (eojgc, eojcc, eojci)
                  esv (len ps) (fully_present cut 12 ps))) /\
    exists k, fully_present cut 12 ps = firstn k ps.
Proof.
  intros Ht Hg Hc Hi He Hn Hwf Hcut.
  eexists. split; [apply create_wire; assumption|].
  split; [|apply fully_present_prefix].
  rewrite firstn_app.
  rewrite (firstn_all2 (wire_header tid eojgc eojcc eojci esv (len ps)))
    by (cbn [wire_header List.length]; lia).
  rewrite header_fields by (assumption || (unfold is_byte, len; lia)).
  unfold len at 2. rewrite Nat2Z.id.
  cbn [wire_header List.length].
  rewrite (scan_wire_cut ps _ _ 12%nat) by (assumption || lia).
  replace (12 + (cut - 12))%nat with cut by lia.
  reflexivity.
Qed.

Lemma C2_truncated_witness :
  let ps := [(0x80, 1, [Byte.x30]); (0x84, 2, [Byte.x00; Byte.x96]);
             (0x8A, 3, [Byte.x00; Byte.x00; Byte.x01])] in
  (0 <= 0x1234 < 65536 /\ is_byte 0x02 /\ is_byte 0x88 /\ is_byte 0x01 /\
   is_byte 0x72 /\ (List.length ps <= 255)%nat /\ Forall wf_property ps /\
   (12 <= 18)%nat) /\
  exists packet,
    create_echonet_packet 0x1234 0x02 0x88 0x01 0x72 (map prop_args ps) = Ok packet /\
    parse_echonet_response (firstn 18 packet)
    = Ok (Some (mkFrame 0x1081 0x1234 (0x05, 0xFF, 0x01) (0x02, 0x88, 0x01)
                  0x72 (len ps) (fully_present 18 12 ps))) /\
    exists k, fully_present 18 12 ps = firstn k ps.
Proof.
  intros ps.
  assert (H : 0 <= 0x1234 < 65536 /\ is_byte 0x02 /\ is_byte 0x88 /\ is_byte 0x01 /\
              is_byte 0x72 /\ (List.length ps <= 255)%nat /\ Forall wf_property ps /\
              (12 <= 18)%nat).
  { unfold is_byte, ps. simpl. repeat split; try lia; solve_wf. }
  split; [exact H|].
  destruct H as (H1 & H2 & H3 & H4 & H5 & H6 & H7 & H8).
  exact (C2_truncated_decode 0x1234 0x02 0x88 0x01 0x72 ps 18
           H1 H2 H3 H4 H5 H6 H7 H8).
Defined.

(** C3. On fewer than 12 bytes the parser returns no frame ([None]) and
    raises nothing; on 12 bytes or more it returns a frame. *)
Theorem C3_insufficient_data (data : bytes) :
  (len data < 12 -> parse_echonet_response data = Ok None) /\
  (12 <= len data -> exists fr, parse_echonet_response data = Ok (Some fr)).
Proof.
  split.
  - apply parse_short.
  - intros H.
    destruct (long_shape data H)
      as (d0 & d1 & d2 & d3 & d4 & d5 & d6 & d7 & d8 & d9 & d10 & d11 & rest & ->).
    eexists. apply parse_long.
Qed.

Lemma C3_insufficient_data_witness :
  let short := [Byte.x10; Byte.x81; Byte.x00; Byte.x01; Byte.x02] in
  let long := [Byte.x10; Byte.x81; Byte.x00; Byte.x01; Byte.x02; Byte.x88;
               Byte.x01; Byte.x05; Byte.xff; Byte.x01; Byte.x72; Byte.x00] in
  (len short < 12 /\ 12 <= len long) /\
  parse_echonet_response short = Ok None /\
  exists fr, parse_echonet_response long = Ok (Some fr).
Proof.
  intros short long.
  assert (H : len short < 12 /\ 12 <= len long) by (unfold len; simpl; lia).
  split; [exact H|]. destruct H as [Hs Hl]. split.
  - exact (proj1 (C3_insufficient_data short) Hs).
  - exact (proj2 (C3_insufficient_data long) Hl).
Defined.

(** C9. On every buffer of at least 12 bytes the parser returns a frame
    whose count field is the byte at offset 11, whatever the number of
    properties it could read; that number never exceeds the count and,
    for some buffers, is smaller. *)
Theorem C9_count_field_is_declared_count :
  (forall data : bytes,
      12 <= len data ->
      exists (fr : frame) (b11 : byte),
        nth_error data 11 = Some b11 /\
        parse_echonet_response data = Ok (Some fr) /\
        opc fr = int_of_byte b11 /\
        len (props fr) <= opc fr) /\
  (exists (data : bytes) (fr : frame),
      parse_echonet_response data = Ok (Some fr) /\
      len (props fr) < opc fr).
Proof.
  split.
  - intros data H.
    destruct (long_shape data H)
      as (d0 & d1 & d2 & d3 & d4 & d5 & d6 & d7 & d8 & d9 & d10 & d11 & rest & ->).
    eexists. exists d11. split; [reflexivity|].
    split; [apply parse_long|]. cbn [opc props]. split; [reflexivity|].
    pose proof (scan_properties_length (Z.to_nat (int_of_byte d11)) rest).
    pose proof (int_of_byte_range d11). unfold len. lia.
  - exists [Byte.x10; Byte.x81; Byte.x00; Byte.x01; Byte.x02; Byte.x88;
            Byte.x01; Byte.x05; Byte.xff; Byte.x01; Byte.x72; Byte.x02;
            Byte.x80; Byte.x01; Byte.x30; Byte.x84; Byte.x02; Byte.x00].
    eexists. split; [apply parse_long|].
    vm_compute. reflexivity.
Qed.

Lemma C9_count_field_witness :
  let data := [Byte.x10; Byte.x81; Byte.x00; Byte.x01; Byte.x02; Byte.x88;
               Byte.x01; Byte.x05; Byte.xff; Byte.x01; Byte.x72; Byte.x03;
               Byte.x80; Byte.x01] in
  12 <= len data /\
  exists (fr : frame) (b11 : byte),
    nth_error data 11 = Some b11 /\
    parse_echonet_response data = Ok (Some fr) /\
    opc fr = int_of_byte b11 /\
    len (props fr) <= opc fr.
Proof.
  intros data.
  assert (H : 12 <= len data) by (unfold len; simpl; lia).
  split; [exact H|].
  exact (proj1 C9_count_field_is_declared_count data H).
Defined.

(** C10. The parser does not look at the format marker: on every buffer
    of at least 12 bytes it returns a frame whose [ehd] field is the
    16-bit number made of the first two bytes, first byte high, from
    which both bytes can be read back, whatever these bytes are; the
    encoder, for its part, only produces packets that start with 0x10
    0x81. *)
Theorem C10_marker_not_validated :
  (forall data : bytes,
      12 <= len data ->
      exists (d0 d1 : byte) (rest : bytes) (fr : frame),
        data = d0 :: d1 :: rest /\
        parse_echonet_response data = Ok (Some fr) /\
        ehd fr = int_of_byte d0 * 256 + int_of_byte d1 /\
        Z.shiftr (ehd fr) 8 = int_of_byte d0 /\
        Z.land (ehd fr) 0xFF = int_of_byte d1) /\
  (forall (tid eojgc eojcc eojci esv : Z) (ps : list (list Z)) (packet : bytes),
      create_echonet_packet tid eojgc eojcc eojci esv ps = Ok packet ->
      exists rest, packet = Byte.x10 :: Byte.x81 :: rest).
Proof.
  split.
  - intros data H.
    destruct (long_shape data H)
      as (d0 & d1 & d2 & d3 & d4 & d5 & d6 & d7 & d8 & d9 & d10 & d11 & rest & ->).
    exists d0, d1. eexists. eexists. split; [reflexivity|].
    split; [apply parse_long|]. cbn [ehd].
    pose proof (int_of_byte_range d0) as R0.
    pose proof (int_of_byte_range d1) as R1.
    rewrite lor_shiftl_8 by lia.
    rewrite shiftr_8, land_255.
    repeat split.
    + rewrite Z.div_add_l by lia. rewrite Z.div_small by lia. lia.
    + rewrite Z.add_comm, Z.mod_add by lia. apply Z.mod_small. lia.
  - intros. eapply create_marker. eassumption.
Qed.

Lemma C10_marker_not_validated_witness :
  let data := [Byte.xde; Byte.xad; Byte.x00; Byte.x01; Byte.x02; Byte.x88;
               Byte.x01; Byte.x05; Byte.xff; Byte.x01; Byte.x72; Byte.x00] in
  (12 <= len data /\
   create_echonet_packet 7 0x02 0x7D 0x01 0x62 [[0x80; 0]]
   = Ok [Byte.x10; Byte.x81; Byte.x00; Byte.x07; Byte.x05; Byte.xff; Byte.x01;
         Byte.x02; Byte.x7d; Byte.x01; Byte.x62; Byte.x01; Byte.x80; Byte.x00]) /\
  (exists (d0 d1 : byte) (rest : bytes) (fr : frame),
      data = d0 :: d1 :: rest /\
      parse_echonet_response data = Ok (Some fr) /\
      ehd fr = int_of_byte d0 * 256 + int_of_byte d1 /\
      Z.shiftr (ehd fr) 8 = int_of_byte d0 /\
      Z.land (ehd fr) 0xFF = int_of_byte d1) /\
  (exists rest,
      [Byte.x10; Byte.x81; Byte.x00; Byte.x07; Byte.x05; Byte.xff; Byte.x01;
       Byte.x02; Byte.x7d; Byte.x01; Byte.x62; Byte.x01; Byte.x80; Byte.x00]
      = Byte.x10 :: Byte.x81 :: rest).
Proof.
  intros data.
  assert (H : 12 <= len data /\
              create_echonet_packet 7 0x02 0x7D 0x01 0x62 [[0x80; 0]]
              = Ok [Byte.x10; Byte.x81; Byte.x00; Byte.x07; Byte.x05; Byte.xff;
                    Byte.x01; Byte.x02; Byte.x7d; Byte.x01; Byte.x62; Byte.x01;
                    Byte.x80; Byte.x00]).
  { split; [unfold len; simpl; lia | vm_compute; reflexivity]. }
  split; [exact H|]. destruct H as [Hl Hc]. split.
  - exact (proj1 C10_marker_not_validated data Hl).
  - exact (proj2 C10_marker_not_validated _ _ _ _ _ _ _ Hc).
Defined.

(** ** The formatter *)

Lemma from_bytes_fold_bound (b : bytes) :
  forall acc : Z,
    0 <= acc ->
    0 <= fold_left (fun a x => a * 256 + int_of_byte x) b acc
      < (acc + 1) * 2 ^ (8 * len b).
Proof.
  induction b as [|x b IH]; intros acc Hacc.
  - simpl. unfold len. simpl. lia.
  - cbn [fold_left]. pose proof (int_of_byte_range x) as Rx.
    specialize (IH (acc * 256 + int_of_byte x) ltac:(lia)).
    pose proof (len_nonneg b) as Lb.
    replace (len (x :: b)) with (len b + 1)
      by (unfold len; cbn [List.length]; lia).
    replace (8 * (len b + 1)) with (8 * len b + 8) by lia.
    rewrite Z.pow_add_r by lia.
    assert (P : 0 < 2 ^ (8 * len b)) by (apply Z.pow_pos_nonneg; lia).
    change (2 ^ 8) with 256. nia.
Qed.

Lemma from_bytes_big_bound (b : bytes) :
  0 <= from_bytes_big b < 2 ^ (8 * len b).
Proof.
  unfold from_bytes_big.
  pose proof (from_bytes_fold_bound b 0 ltac:(lia)). lia.
Qed.

Lemma str_int_small (n : Z) :
  Z.abs n < 10 ^ int_max_str_digits -> str_int n = Ok (decimal n).
Proof.
  intros H. unfold str_int.
  destruct (Z.leb_spec (10 ^ int_max_str_digits) (Z.abs n)) as [L|_];
    [|reflexivity].
  exfalso. apply (Z.lt_irrefl (Z.abs n)).
  apply Z.lt_le_trans with (10 ^ int_max_str_digits); assumption.
Qed.

(** A number that fits in 255 bytes has 615 digits at most. *)
Lemma payload_below_limit (edt : bytes) :
  len edt <= 255 -> 2 ^ (8 * len edt) < 10 ^ int_max_str_digits.
Proof.
  intros H. pose proof (len_nonneg edt) as Hn.
  apply Z.le_lt_trans with (2 ^ 2040).
  - apply Z.pow_le_mono_r; lia.
  - apply Z.ltb_lt. vm_compute. reflexivity.
Qed.

(** C5. The formatter is a function of the code and the payload alone;
    it renders (0x80, [0x30]) as "ON" and (0x80, [0x31]) as "OFF",
    (0xD3, [0x00, 0x0A]) as "Charging: 10 W" and (0xD3, [0xFF, 0xF6]) as
    "Discharging: 10 W"; for code 0xD3 and a payload of [n] bytes, from
    2 bytes up to the 255 bytes a property can carry, holding the
    big-endian number [u], it renders [u] as charging when
    [u < 2^(8n-1)] and [2^(8n) - u] as discharging otherwise, which is
    the two's-complement reading of the payload. *)
Theorem C5_format_examples :
  format_property_value 0x80 [Byte.x30] = Ok "ON" /\
  contains "ON" "ON" = true /\
  format_property_value 0x80 [Byte.x31] = Ok "OFF" /\
  contains "OFF" "OFF" = true /\
  format_property_value 0xD3 [Byte.x00; Byte.x0a] = Ok "Charging: 10 W" /\
  format_property_value 0xD3 [Byte.xff; Byte.xf6] = Ok "Discharging: 10 W" /\
  (forall edt : bytes,
      len edt >= 2 -> len edt <= 255 ->
      let u := from_bytes_big edt in
      format_property_value 0xD3 edt
      = Ok (if u <? 2 ^ (8 * len edt - 1)
            then ("Charging: " ++ decimal u ++ " W")%string
            else ("Discharging: " ++ decimal (2 ^ (8 * len edt) - u) ++ " W")%string)).
Proof.
  repeat (split; [vm_compute; reflexivity|]).
  intros edt Hlen Hmax u.
  unfold format_property_value, format_body, format_dispatch.
  change (0xD3 =? EPC_OPERATIONAL_STATUS) with false.
  change (0xD3 =? EPC_MANUFACTURER_CODE) with false.
  change (0xD3 =? EPC_POWER_CONSUMPTION) with false.
  change (0xD3 =? EPC_CUMULATIVE_POWER) with false.
  change (0xD3 =? EPC_INSTANTANEOUS_POWER) with false.
  change (0xD3 =? EPC_BATTERY_CHARGE_DISCHARGE) with true.
  cbv iota.
  destruct (Z.geb_spec (len edt) 2) as [_|]; [|lia].
  unfold from_bytes_big_signed. fold u.
  pose proof (from_bytes_big_bound edt) as Bu. fold u in Bu.
  pose proof (payload_below_limit edt Hmax) as Hlimit.
  set (limit := 10 ^ int_max_str_digits) in *.
  assert (Hpow : 2 ^ (8 * len edt) = 2 * 2 ^ (8 * len edt - 1)).
  { rewrite <- Z.pow_succ_r by lia. f_equal. lia. }
  set (half := 2 ^ (8 * len edt - 1)) in *.
  set (full := 2 ^ (8 * len edt)) in *.
  destruct (Z.ltb_spec 0 (8 * len edt)) as [_|]; [|lia].
  cbn [andb].
  destruct (Z.leb_spec half u) as [Neg|NonNeg].
  - destruct (Z.ltb_spec u half) as [|_]; [lia|].
    destruct (Z.geb_spec (u - full) 0) as [|_]; [lia|].
    replace (- (u - full)) with (full - u) by lia.
    rewrite str_int_small by (fold limit; lia).
    reflexivity.
  - destruct (Z.ltb_spec u half) as [_|]; [|lia].
    destruct (Z.geb_spec u 0) as [_|]; [|lia].
    rewrite str_int_small by (fold limit; lia).
    reflexivity.
Qed.

Lemma C5_format_witness :
  (len [Byte.xff; Byte.xf6] >= 2 /\ len [Byte.xff; Byte.xf6] <= 255) /\
  format_property_value 0xD3 [Byte.xff; Byte.xf6]
  = Ok ("Discharging: " ++ decimal (2 ^ 16 - 0xFFF6) ++ " W")%string.
Proof.
  assert (H : len [Byte.xff; Byte.xf6] >= 2 /\ len [Byte.xff; Byte.xf6] <= 255)
    by (unfold len; simpl; lia).
  split; [exact H|]. destruct H as [H1 H2].
  exact (proj2 (proj2 (proj2 (proj2 (proj2 (proj2 C5_format_examples)))))
           [Byte.xff; Byte.xf6] H1 H2).
Defined.

(** A code without a branch, and a length-guarded code whose guard
    fails, fall out of the chain. *)
Lemma format_dispatch_falls_through (epc : Z) (edt : bytes) :
  recognized epc = false \/
  (length_guarded epc = true /\ len edt < expected_width epc) ->
  format_dispatch epc edt = Ok None.
Proof.
  unfold recognized, length_guarded, expected_width, format_dispatch.
  cbn [existsb].
  destruct (Z.eqb_spec epc EPC_OPERATIONAL_STATUS) as [->|_].
  { cbn. intros [H|[H _]]; discriminate. }
  destruct (Z.eqb_spec epc EPC_MANUFACTURER_CODE) as [->|_].
  { cbn. intros [H|[H _]]; discriminate. }
  destruct (Z.eqb_spec epc EPC_POWER_CONSUMPTION) as [->|_].
  { cbn [orb]. intros [H|[_ H]]; [discriminate|].
    destruct (Z.geb_spec (len edt) 2); [lia | reflexivity]. }
  destruct (Z.eqb_spec epc EPC_CUMULATIVE_POWER) as [->|_].
  { cbn [orb]. intros [H|[_ H]]; [discriminate|].
    destruct (Z.geb_spec (len edt) 4); [lia | reflexivity]. }
  destruct (Z.eqb_spec epc EPC_INSTANTANEOUS_POWER) as [->|_].
  { cbn [orb]. intros [H|[_ H]]; [discriminate|].
    destruct (Z.geb_spec (len edt) 2); [lia | reflexivity]. }
  destruct (Z.eqb_spec epc EPC_BATTERY_CHARGE_DISCHARGE) as [->|_].
  { cbn [orb]. intros [H|[_ H]]; [discriminate|].
    destruct (Z.geb_spec (len edt) 2); [lia | reflexivity]. }
  reflexivity.
Qed.

(** C6, as stated, fails: the operational-status code 0x80 is a
    recognized code, an empty payload is too short for the byte its
    branch reads, and the formatter does not answer with a "Raw" dump
    there. *)
Lemma C6_raw_dump_counterexample :
  ~ (forall (epc : Z) (edt : bytes),
        recognized epc = false \/
        (recognized epc = true /\ len edt < expected_width epc) ->
        format_property_value epc edt = Ok ("Raw: " ++ hexlify edt)%string).
Proof.
  intros H.
  specialize (H 0x80 []).
  assert (P : recognized 0x80 = false \/
              (recognized 0x80 = true /\ len (@nil byte) < expected_width 0x80)).
  { right. split; [reflexivity | vm_compute; reflexivity]. }
  specialize (H P). vm_compute in H. discriminate H.
Qed.

(** C6, amended.  For every code that has no branch in the formatter,
    and for every length-guarded code (0x84, 0xE0 and 0xD3, which test
    for 2 bytes, and 0x85, which tests for 4) whose payload is shorter
    than the tested length, the formatter returns "Raw: " followed by
    the lower-case hexadecimal dump of the payload; (0xFF, [0xAB, 0xCD])
    gives "Raw: abcd"; for the operational-status code 0x80 with an
    empty payload the formatter returns the string
    "Error formatting: index out of range" instead. *)
Theorem C6_raw_dump_amended :
  (forall (epc : Z) (edt : bytes),
      recognized epc = false \/
      (length_guarded epc = true /\ len edt < expected_width epc) ->
      format_property_value epc edt = Ok ("Raw: " ++ hexlify edt)%string) /\
  format_property_value 0xFF [Byte.xab; Byte.xcd] = Ok "Raw: abcd" /\
  contains "abcd" "Raw: abcd" = true /\
  format_property_value 0x80 [] = Ok "Error formatting: index out of range".
Proof.
  split; [|repeat split; vm_compute; reflexivity].
  intros epc edt H.
  unfold format_property_value, format_body.
  rewrite format_dispatch_falls_through by exact H.
  reflexivity.
Qed.

Lemma C6_raw_dump_witness :
  (recognized 0x42 = false /\
   length_guarded 0x85 = true /\
   len [Byte.x01; Byte.x02; Byte.x03] < expected_width 0x85) /\
  format_property_value 0x42 [Byte.x01] = Ok ("Raw: " ++ hexlify [Byte.x01])%string /\
  format_property_value 0x85 [Byte.x01; Byte.x02; Byte.x03]
  = Ok ("Raw: " ++ hexlify [Byte.x01; Byte.x02; Byte.x03])%string.
Proof.
  assert (H : recognized 0x42 = false /\
              length_guarded 0x85 = true /\
              len [Byte.x01; Byte.x02; Byte.x03] < expected_width 0x85).
  { repeat split; try reflexivity. }
  split; [exact H|]. destruct H as (H1 & H2 & H3). split.
  - exact (proj1 C6_raw_dump_amended 0x42 [Byte.x01] (or_introl H1)).
  - exact (proj1 C6_raw_dump_amended 0x85 [Byte.x01; Byte.x02; Byte.x03]
             (or_intror (conj H2 H3))).
Defined.

Lemma str_int_raises (n : Z) (e : exn) :
  str_int n = Raise e <->
  10 ^ int_max_str_digits <= Z.abs n /\ e = ValueError int_limit_message.
Proof.
  unfold str_int.
  destruct (Z.leb_spec (10 ^ int_max_str_digits) (Z.abs n)) as [L|L]; split.
  - intros H. injection H as <-. split; [exact L | reflexivity].
  - intros [_ ->]. reflexivity.
  - discriminate.
  - intros [L' _]. exfalso. apply (Z.lt_irrefl (Z.abs n)).
    apply Z.lt_le_trans with (10 ^ int_max_str_digits); assumption.
Qed.

(** A numeric branch raises exactly when the rendering of its integer
    does. *)
Lemma numeric_branch_raises (n v : Z) (e : exn)
    (k : string -> result (option string)) (fallback : string) (other : Prop) :
  Z.abs n = v ->
  (forall s, exists r, k s = Ok (Some r)) ->
  ~ other ->
  rbind (rbind (str_int n) k)
        (fun r => match r with Some s => Ok s | None => Ok fallback end)
  = Raise e
  <-> other \/
      (exists v', Some v' = Some v /\ 10 ^ int_max_str_digits <= v' /\
                  e = ValueError int_limit_message).
Proof.
  intros Habs Hk Hother.
  destruct (str_int n) as [s|e'] eqn:Es; cbn [rbind].
  - destruct (Hk s) as [r ->]. cbn [rbind]. split; [discriminate|].
    intros [H|(v' & Hv & Hle & He)]; [contradiction|].
    injection Hv as Hv. subst v'. rewrite <- Habs in Hle.
    assert (Hr : str_int n = Raise e) by (apply str_int_raises; auto).
    rewrite Es in Hr. discriminate.
  - apply str_int_raises in Es. destruct Es as [Hle ->]. split.
    + intros H. injection H as <-. right. exists v. rewrite <- Habs. auto.
    + intros [H|(v' & _ & _ & ->)]; [contradiction | reflexivity].
Qed.

(** C7. For every code and payload the formatter returns a string and
    raises nothing: when its body returns a string it returns that
    string, and when its body raises it returns "Error formatting: "
    followed by the text of the exception.  The body does raise on some
    input: it raises [IndexError] on (0x80, []), which the formatter
    renders as "Error formatting: index out of range". *)
Theorem C7_format_total :
  (forall (epc : Z) (edt : bytes),
      exists s : string,
        format_property_value epc edt = Ok s /\
        match format_body epc edt with
        | Ok v => s = v
        | Raise e => s = ("Error formatting: " ++ exn_str e)%string
        end) /\
  format_body 0x80 [] = Raise (IndexError "index out of range") /\
  format_property_value 0x80 [] = Ok "Error formatting: index out of range".
Proof.
  split; [|split; reflexivity].
  intros epc edt. unfold format_property_value.
  destruct (format_body epc edt) as [v|e]; eexists; split; reflexivity.
Qed.

(** ** The sweep *)

Lemma format_ok (epc : Z) (edt : bytes) :
  format_property_value epc edt = Ok (formatted epc edt).
Proof.
  unfold formatted, format_property_value.
  destruct (format_body epc edt); reflexivity.
Qed.

Lemma for_each_app {A} (xs ys : list A) (f : A -> M unit) (s : pstate) :
  for_each (xs ++ ys) f s = bind (for_each xs f) (fun _ => for_each ys f) s.
Proof.
  revert s. induction xs as [|x xs IH]; intros s.
  - reflexivity.
  - cbn [app for_each]. unfold bind.
    destruct (f x s) as [[[]|e] s1]; [|reflexivity].
    rewrite IH. reflexivity.
Qed.

Lemma for_each_map {A B} (g : A -> B) (xs : list A) (f : B -> M unit) (s : pstate) :
  for_each (map g xs) f s = for_each xs (fun x => f (g x)) s.
Proof.
  revert s. induction xs as [|x xs IH]; intros s; [reflexivity|].
  cbn [map for_each]. unfold bind.
  destruct (f (g x) s) as [[[]|e] s1]; [apply IH | reflexivity].
Qed.

(** Two nested loops are one loop over the pairs. *)
Lemma for_each_nested {A B} (xs : list A) (ys : list B)
    (f : A -> B -> M unit) (s : pstate) :
  for_each xs (fun x => for_each ys (fun y => f x y)) s
  = for_each (list_prod xs ys) (fun p => f (fst p) (snd p)) s.
Proof.
  revert s. induction xs as [|x xs IH]; intros s; [reflexivity|].
  cbn [list_prod for_each]. rewrite for_each_app. unfold bind.
  rewrite for_each_map. cbn [fst snd].
  destruct (for_each ys (fun y => f x y) s) as [[[]|e] s1]; [apply IH | reflexivity].
Qed.

(** The inner loop over the properties of an answer. *)
Lemma process_properties (device_name : string) (ps : list property) :
  forall s : pstate,
    for_each ps (process_property device_name) s
    = (Ok tt,
       mkState (sent s)
         (successful_readings s
          ++ map (reading_of device_name)
               (filter (fun p : property => let '(_, pdc, _) := p in pdc >? 0) ps))).
Proof.
  induction ps as [|[[epc pdc] edt] ps IH]; intros s.
  - cbn. rewrite app_nil_r. destruct s; reflexivity.
  - cbn [for_each filter]. unfold bind at 1.
    unfold process_property at 1. unfold bind, lift.
    rewrite format_ok.
    destruct (pdc >? 0).
    + unfold append_reading. rewrite IH. cbn [sent successful_readings map reading_of].
      rewrite <- app_assoc. reflexivity.
    + unfold ret. rewrite IH. reflexivity.
Qed.

Lemma filter_pdc_payload (ps : list property) :
  Forall (fun p : property => let '(_, pdc, edt) := p in pdc = len edt) ps ->
  filter (fun p : property => let '(_, pdc, _) := p in pdc >? 0) ps
  = filter has_payload ps.
Proof.
  induction 1 as [|[[epc pdc] edt] ps Hp _ IH]; [reflexivity|].
  cbn [filter has_payload]. rewrite IH. subst pdc.
  destruct edt as [|b edt]; [reflexivity|].
  unfold len. cbn [List.length Nat.eqb negb].
  destruct (Z.gtb_spec (Z.of_nat (S (List.length edt))) 0); [reflexivity | lia].
Qed.

Lemma parsed_pdc (data : bytes) (fr : frame) :
  parse_echonet_response data = Ok (Some fr) ->
  Forall (fun p : property => let '(_, pdc, edt) := p in pdc = len edt) (props fr).
Proof.
  intros H.
  destruct (Z.ltb_spec (len data) 12) as [Short|Long].
  - rewrite parse_short in H by assumption. discriminate.
  - destruct (long_shape data Long)
      as (d0 & d1 & d2 & d3 & d4 & d5 & d6 & d7 & d8 & d9 & d10 & d11 & rest & ->).
    rewrite parse_long in H. injection H as <-. cbn [props].
    apply scan_properties_pdc.
Qed.

Lemma parse_never_raises (data : bytes) :
  exists r, parse_echonet_response data = Ok r.
Proof.
  unfold parse_echonet_response. destruct (parse_body data); eauto.
Qed.

(** One pair: whatever the socket does, the pair ends without an
    exception, with one more call of [sendto] and the Readings of the
    attempt appended. *)
Lemma probe_pair_effect (w : world) (host : string) (port : Z)
    (device : Z * Z * Z * string) (prop_set : list (list Z)) (s : pstate) :
  let a : attempt := (List.length (sent s), (device, prop_set)) in
  request_packet w a = Ok (request_bytes w a) ->
  probe_pair w host port device prop_set s
  = (Ok tt,
     mkState (sent s ++ [sent_entry w host port a])
             (successful_readings s ++ attempt_readings w a)).
Proof.
  destruct device as [[[eojgc eojcc] eojci] device_name].
  intros a Hreq.
  unfold sent_entry. rewrite <- Hreq || idtac.
  unfold probe_pair, bind at 1, time_ms, bind at 1, lift at 1.
  unfold a, request_packet in Hreq. rewrite Hreq.
  unfold try_except at 1, bind at 1, sendto.
  unfold a, attempt_readings.
  destruct (sendto_raises w (List.length (sent s))) as [e|].
  - cbn. rewrite app_nil_r. reflexivity.
  - unfold try_except, bind at 1, recvfrom. cbn [sent].
    rewrite length_app. cbn [List.length].
    replace (Nat.pred (List.length (sent s) + 1)) with (List.length (sent s)) by lia.
    destruct (recvfrom_result w (List.length (sent s))) as [[response addr]|e].
    + unfold bind at 1, lift.
      destruct (parse_never_raises (slice response 0 1024)) as [[fr|] Hparse];
        rewrite Hparse.
      * rewrite process_properties. cbn [sent successful_readings].
        rewrite (filter_pdc_payload _ (parsed_pdc _ _ Hparse)).
        reflexivity.
      * unfold ret. rewrite app_nil_r. reflexivity.
    + destruct (is_timeout e); cbn; rewrite app_nil_r; reflexivity.
Qed.

Lemma property_sets_args : property_sets = map (map prop_args) property_sets_decoded.
Proof. reflexivity. Qed.

(** The requests of the catalogue can always be built, whatever the
    clock shows. *)
Lemma catalogue_request_ok (w : world) (n : nat)
    (device : Z * Z * Z * string) (prop_set : list (list Z)) :
  In device device_types -> In prop_set property_sets ->
  request_packet w (n, (device, prop_set))
  = Ok (request_bytes w (n, (device, prop_set))).
Proof.
  intros Hd Hp.
  assert (E : exists packet, request_packet w (n, (device, prop_set)) = Ok packet).
  { rewrite property_sets_args in Hp. apply in_map_iff in Hp.
    destruct Hp as (ps & <- & Hps).
    destruct device as [[[eojgc eojcc] eojci] device_name].
    unfold request_packet. eexists. apply create_wire.
    - unfold device_types in Hd. cbn [In] in Hd.
      repeat (destruct Hd as [Hd|Hd]; [inversion Hd; subst; unfold is_byte; lia|]).
      contradiction.
    - unfold device_types in Hd. cbn [In] in Hd.
      repeat (destruct Hd as [Hd|Hd]; [inversion Hd; subst; unfold is_byte; lia|]).
      contradiction.
    - unfold device_types in Hd. cbn [In] in Hd.
      repeat (destruct Hd as [Hd|Hd]; [inversion Hd; subst; unfold is_byte; lia|]).
      contradiction.
    - unfold is_byte; lia.
    - unfold property_sets_decoded in Hps. cbn [In] in Hps.
      repeat (destruct Hps as [Hps|Hps]; [subst ps; simpl; lia|]).
      contradiction.
    - unfold property_sets_decoded in Hps. cbn [In] in Hps.
      repeat (destruct Hps as [Hps|Hps]; [subst ps; solve_wf|]).
      contradiction. }
  destruct E as [packet E]. unfold request_bytes. rewrite E. reflexivity.
Qed.

(** A loop over pairs whose requests can be built. *)
Lemma sweep_pairs (w : world) (host : string) (port : Z)
    (pairs : list ((Z * Z * Z * string) * list (list Z))) :
  (forall n p, In p pairs -> request_packet w (n, p) = Ok (request_bytes w (n, p))) ->
  forall s : pstate,
    let run := combine (seq (List.length (sent s)) (List.length pairs)) pairs in
    for_each pairs (fun p => probe_pair w host port (fst p) (snd p)) s
    = (Ok tt,
       mkState (sent s ++ map (sent_entry w host port) run)
               (successful_readings s ++ flat_map (attempt_readings w) run)).
Proof.
  induction pairs as [|[device prop_set] pairs IH]; intros Hreq s.
  - cbn. rewrite !app_nil_r. destruct s; reflexivity.
  - cbn [for_each List.length seq combine map flat_map fst snd]. unfold bind.
    rewrite probe_pair_effect by (apply Hreq; left; reflexivity).
    rewrite IH by (intros n p Hp; apply Hreq; right; exact Hp).
    cbn [sent successful_readings].
    rewrite length_app. cbn [List.length].
    replace (List.length (sent s) + 1)%nat with (S (List.length (sent s))) by lia.
    rewrite <- !app_assoc. reflexivity.
Qed.

(** A run of the prober from the initial state. *)
Lemma probe_run (w : world) (host : string) (port : Z) :
  probe_echonet_device w host port initial_state
  = (Ok (match successful_readings (sweep_state w host port) with
         | [] => false
         | _ :: _ => true
         end),
     sweep_state w host port).
Proof.
  unfold probe_echonet_device, bind.
  rewrite (for_each_nested device_types property_sets
             (fun device prop_set => probe_pair w host port device prop_set)).
  rewrite sweep_pairs.
  - cbn [initial_state sent successful_readings app List.length].
    fold catalogue_pairs. fold attempts.
    unfold sweep_state. cbn [successful_readings].
    destruct (flat_map (attempt_readings w) attempts); reflexivity.
  - intros n [device prop_set] Hp. apply in_prod_iff in Hp.
    apply catalogue_request_ok; tauto.
Qed.

Lemma catalogue_pairs_NoDup : NoDup catalogue_pairs.
Proof.
  unfold catalogue_pairs. vm_compute.
  repeat (apply NoDup_cons;
          [ intros H; cbn [In] in H;
            repeat (destruct H as [H|H]; [discriminate H|]); exact H | ]).
  apply NoDup_nil.
Qed.

(** The end-to-end scenario: one answering pair gives its two Readings,
    in property order, and the run succeeds. *)
Example sweep_meter_only :
  main meter_only "192.168.1.20" 3610 initial_state
  = (Ok 0,
     mkState (map (sent_entry meter_only "192.168.1.20" 3610) attempts)
       [ ("Smart Electric Energy Meter", "EPC 0x80", "ON");
         ("Smart Electric Energy Meter", "EPC 0x84", "150 W") ]).
Proof. vm_compute. reflexivity. Qed.

(** ** The claims about the sweep *)

(** C4. The catalogues give 15 pairs, all different.  Whatever the
    clock shows and whatever the socket does at each attempt (an error
    when sending, a timeout, an error when receiving, or any datagram),
    a run of the prober ends without an exception; it has called
    [sendto] once per pair, in the order of the pairs, each time with
    the Get request built for that pair; and its list of Readings is
    the concatenation, in the order of the attempts, of the Readings of
    each attempt, which for a decoded answer are one Reading per
    property with a non-empty payload, in the order of the decoded
    properties, and none for a property with an empty payload. *)
Theorem C4_full_sweep (w : world) (host : string) (port : Z) :
  List.length catalogue_pairs = 15%nat /\
  NoDup catalogue_pairs /\
  map snd attempts = catalogue_pairs /\
  map fst attempts = seq 0 15 /\
  Forall (fun a => request_packet w a = Ok (request_bytes w a)) attempts /\
  exists b : bool,
    probe_echonet_device w host port initial_state
    = (Ok b,
       mkState (map (sent_entry w host port) attempts)
               (flat_map (attempt_readings w) attempts)).
Proof.
  split; [reflexivity|].
  split; [apply catalogue_pairs_NoDup|].
  split; [reflexivity|].
  split; [reflexivity|].
  split.
  - apply Forall_forall. intros [n [device prop_set]] Ha.
    unfold attempts in Ha. apply in_combine_r in Ha.
    unfold catalogue_pairs in Ha. apply in_prod_iff in Ha.
    apply catalogue_request_ok; tauto.
  - eexists. rewrite probe_run. reflexivity.
Qed.

(** C8. A run of the prober returns [True] exactly when it collected at
    least one Reading and [False] exactly when it collected none, and
    the exit status of the process is 0 in the first case and not 0 in
    the second. *)
Theorem C8_exit_status (w : world) (host : string) (port : Z) :
  exists (b : bool) (s : pstate),
    probe_echonet_device w host port initial_state = (Ok b, s) /\
    (b = true <-> successful_readings s <> []) /\
    (b = false <-> successful_readings s = []) /\
    (exit_status w host port = 0 <-> successful_readings s <> []) /\
    (exit_status w host port <> 0 <-> successful_readings s = []).
Proof.
  unfold exit_status, main, bind. rewrite probe_run.
  do 2 eexists. split; [reflexivity|].
  destruct (successful_readings (sweep_state w host port)) as [|r rs];
    cbn [fst ret]; repeat split; intros; try congruence; try lia; try discriminate.
Qed.

Lemma C8_exit_status_witness :
  exists (b : bool) (s : pstate),
    probe_echonet_device meter_only "192.168.1.20" 3610 initial_state = (Ok b, s) /\
    (b = true <-> successful_readings s <> []) /\
    (b = false <-> successful_readings s = []) /\
    (exit_status meter_only "192.168.1.20" 3610 = 0 <-> successful_readings s <> []) /\
    (exit_status meter_only "192.168.1.20" 3610 <> 0 <-> successful_readings s = []).
Proof.
  exact (C8_exit_status meter_only "192.168.1.20" 3610).
Defined.

(** * Further properties of the codec *)

Lemma byte_of_int_Ok_iff (n : Z) :
  (exists b, byte_of_int n = Ok b) <-> is_byte n.
Proof.
  unfold is_byte. split.
  - intros [b H]. unfold byte_of_int in H.
    destruct (Z.leb_spec 0 n); destruct (Z.ltb_spec n 256);
      cbn [andb] in H; try discriminate. lia.
  - intros H. exists (to_byte n). apply byte_of_int_ok. exact H.
Qed.

Lemma bytearray_Ok_iff (xs : list Z) :
  (exists bs, bytearray xs = Ok bs) <-> Forall is_byte xs.
Proof.
  split.
  - revert xs. induction xs as [|x xs IH]; intros [bs H]; [constructor|].
    apply bytearray_cons in H. destruct H as (b & bs' & Hb & Hbs & _).
    constructor; [apply byte_of_int_Ok_iff; eauto | apply IH; eauto].
  - intros H. eexists. apply bytearray_ok. exact H.
Qed.

Lemma bytearray_length (xs : list Z) (bs : bytes) :
  bytearray xs = Ok bs -> List.length bs = List.length xs.
Proof.
  revert bs. induction xs as [|x xs IH]; intros bs H.
  - injection H as <-. reflexivity.
  - apply bytearray_cons in H. destruct H as (b & bs' & _ & Hbs & ->).
    cbn [List.length]. rewrite (IH _ Hbs). reflexivity.
Qed.

Lemma is_byte_land (n : Z) : is_byte (Z.land n 0xFF).
Proof.
  unfold is_byte. rewrite land_255. apply Z.mod_pos_bound. lia.
Qed.

(** One turn of the encoder's loop, read off the shape of the property. *)
Lemma add_properties_cons (packet : bytes) (epc pdc : Z) (edt : list Z)
    (rest : list (list Z)) :
  add_properties packet ((epc :: pdc :: edt) :: rest)
  = rbind (bytearray [epc; pdc]) (fun head =>
    rbind (if pdc >? 0 then bytearray edt else Ok [])
          (fun payload => add_properties (packet ++ head ++ payload) rest)).
Proof.
  cbn [add_properties].
  change (getitem (epc :: pdc :: edt) 0) with (Ok epc).
  change (getitem (epc :: pdc :: edt) 1) with (Ok pdc).
  change (slice_from (epc :: pdc :: edt) 2) with edt.
  cbn [rbind]. unfold extend.
  destruct (bytearray [epc; pdc]) as [head|e]; [|reflexivity].
  cbn [rbind].
  destruct (pdc >? 0).
  - destruct (bytearray edt) as [payload|e]; [|reflexivity].
    cbn [rbind]. rewrite <- app_assoc. reflexivity.
  - cbn [rbind]. rewrite app_nil_r. reflexivity.
Qed.

Lemma add_properties_short (packet : bytes) (prop : list Z) (rest : list (list Z)) :
  (List.length prop < 2)%nat ->
  add_properties packet (prop :: rest) = Raise (IndexError "tuple index out of range").
Proof.
  destruct prop as [|epc [|pdc edt]]; cbn [List.length]; intros H;
    try lia; reflexivity.
Qed.

Lemma add_properties_Ok_iff (props : list (list Z)) :
  forall packet : bytes,
    (exists out, add_properties packet props = Ok out) <-> Forall prop_encodable props.
Proof.
  induction props as [|prop props IH]; intros packet.
  - split; [constructor | intros _; eexists; reflexivity].
  - destruct prop as [|epc [|pdc edt]].
    + split; [intros [out H]; discriminate | intros H; inversion H; contradiction].
    + split; [intros [out H]; discriminate | intros H; inversion H; contradiction].
    + rewrite add_properties_cons. split.
      * intros [out H].
        destruct (bytearray [epc; pdc]) as [head|] eqn:Eh; [|discriminate].
        cbn [rbind] in H.
        assert (Hh : Forall is_byte [epc; pdc]) by (apply bytearray_Ok_iff; eauto).
        inversion Hh as [|? ? He Hh']; subst. inversion Hh' as [|? ? Hp _]; subst.
        destruct (Z.gtb_spec pdc 0) as [Pos|Zero].
        -- destruct (bytearray edt) as [payload|] eqn:Ep; [|discriminate].
           cbn [rbind] in H. constructor.
           ++ unfold prop_encodable. split; [assumption|]. split; [assumption|].
              intros _. apply bytearray_Ok_iff. eauto.
           ++ apply (IH (packet ++ head ++ payload)). eauto.
        -- cbn [rbind] in H. constructor.
           ++ unfold prop_encodable. split; [assumption|]. split; [assumption|].
              lia.
           ++ apply (IH (packet ++ head ++ [])). eauto.
      * intros H. inversion H as [|? ? Hx Hrest]; subst.
        destruct Hx as (He & Hp & Hedt).
        rewrite (bytearray_ok [epc; pdc])
          by (repeat (apply Forall_cons || apply Forall_nil); assumption).
        cbn [rbind].
        destruct (Z.gtb_spec pdc 0) as [Pos|Zero].
        -- rewrite (bytearray_ok edt) by (apply Hedt; lia).
           cbn [rbind]. apply IH. exact Hrest.
        -- cbn [rbind]. apply IH. exact Hrest.
Qed.

Lemma byte_of_int_Raise (n : Z) (e : exn) :
  byte_of_int n = Raise e -> e = ValueError "byte must be in range(0, 256)".
Proof.
  unfold byte_of_int. intros H.
  destruct ((0 <=? n) && (n <? 256)).
  - destruct (Byte.of_N (Z.to_N n)); [discriminate|]. injection H as <-. reflexivity.
  - injection H as <-. reflexivity.
Qed.

Lemma bytearray_Raise (xs : list Z) (e : exn) :
  bytearray xs = Raise e -> e = ValueError "byte must be in range(0, 256)".
Proof.
  induction xs as [|x xs IH]; cbn [bytearray]; intros H; [discriminate|].
  destruct (byte_of_int x) as [b|e'] eqn:Eb; cbn [rbind] in H.
  - destruct (bytearray xs) as [bs|e'']; cbn [rbind] in H; [discriminate|].
    injection H as <-. apply IH. reflexivity.
  - injection H as <-. apply (byte_of_int_Raise x). exact Eb.
Qed.

(** What the encoder's loop raises: [ValueError] for an element that is
    not a byte, [IndexError] for a property without a code or without a
    declared length. *)
Lemma add_properties_Raise (props : list (list Z)) :
  forall (packet : bytes) (e : exn),
    add_properties packet props = Raise e ->
    e = ValueError "byte must be in range(0, 256)" \/
    ((exists msg, e = IndexError msg) /\
     Exists (fun prop => (List.length prop < 2)%nat) props).
Proof.
  induction props as [|prop props IH]; intros packet e H; [discriminate|].
  destruct prop as [|epc [|pdc edt]].
  - rewrite add_properties_short in H by (cbn; lia). injection H as <-.
    right. split; [eexists; reflexivity | left; cbn; lia].
  - rewrite add_properties_short in H by (cbn; lia). injection H as <-.
    right. split; [eexists; reflexivity | left; cbn; lia].
  - rewrite add_properties_cons in H.
    destruct (bytearray [epc; pdc]) as [head|e1] eqn:Eh; cbn [rbind] in H.
    + destruct (pdc >? 0).
      * destruct (bytearray edt) as [payload|e2] eqn:Ep; cbn [rbind] in H.
        -- destruct (IH _ _ H) as [Hv|[Hi Hex]]; [left; exact Hv|].
           right. split; [exact Hi | right; exact Hex].
        -- injection H as <-. left. apply (bytearray_Raise edt). exact Ep.
      * cbn [rbind] in H.
        destruct (IH _ _ H) as [Hv|[Hi Hex]]; [left; exact Hv|].
        right. split; [exact Hi | right; exact Hex].
    + injection H as <-. left. apply (bytearray_Raise [epc; pdc]). exact Eh.
Qed.

(** The encoder returns a packet exactly when the destination identity
    and the service code are bytes, there are at most 255 properties,
    and every property has a code and a declared length that are bytes
    and, if the declared length is positive, a payload of bytes.  In
    every other case it raises [ValueError] ("byte must be in range(0,
    256)") or [IndexError]: [ValueError] whenever an identity byte, the
    service code or the number of properties is out of range, and
    [IndexError] only if some property has fewer than two elements.
    The transaction id is never a reason to raise. *)
Theorem create_packet_succeeds_iff
    (tid eojgc eojcc eojci esv : Z) (props : list (list Z)) :
  ((exists packet, create_echonet_packet tid eojgc eojcc eojci esv props = Ok packet)
   <-> is_byte eojgc /\ is_byte eojcc /\ is_byte eojci /\ is_byte esv /\
       (List.length props <= 255)%nat /\ Forall prop_encodable props) /\
  (forall e : exn,
      create_echonet_packet tid eojgc eojcc eojci esv props = Raise e ->
      e = ValueError "byte must be in range(0, 256)" \/
      ((exists msg, e = IndexError msg) /\
       Exists (fun prop => (List.length prop < 2)%nat) props)) /\
  (~ (is_byte eojgc /\ is_byte eojcc /\ is_byte eojci /\ is_byte esv /\
      (List.length props <= 255)%nat) ->
   create_echonet_packet tid eojgc eojcc eojci esv props
   = Raise (ValueError "byte must be in range(0, 256)")).
Proof.
  unfold create_echonet_packet.
  pose proof (is_byte_land (Z.shiftr tid 8)) as Hhi.
  pose proof (is_byte_land tid) as Hlo.
  match goal with
  | |- context [bytearray ?xs] => set (header := xs)
  end.
  assert (Hheader : Forall is_byte header <->
                    is_byte eojgc /\ is_byte eojcc /\ is_byte eojci /\ is_byte esv /\
                    (List.length props <= 255)%nat).
  { unfold header. split.
    - intros Hh.
      repeat match goal with
             | Hf : Forall is_byte (_ :: _) |- _ => inversion Hf; clear Hf; subst
             end.
      split; [assumption|]. split; [assumption|]. split; [assumption|].
      split; [assumption|].
      match goal with Hl : is_byte (len props) |- _ => unfold is_byte, len in Hl end.
      lia.
    - intros (Hg & Hc & Hi & He & Hn).
      repeat (apply Forall_cons || apply Forall_nil);
        try assumption; unfold is_byte, len; lia. }
  split; [|split].
  - split.
    + intros [packet H].
      destruct (bytearray header) as [head|] eqn:Eh; [|discriminate].
      cbn [rbind] in H.
      assert (Hh : Forall is_byte header) by (apply bytearray_Ok_iff; eauto).
      apply Hheader in Hh. destruct Hh as (Hg & Hc & Hi & He & Hn).
      split; [assumption|]. split; [assumption|]. split; [assumption|].
      split; [assumption|]. split; [assumption|].
      apply (add_properties_Ok_iff props head). eauto.
    + intros (Hg & Hc & Hi & He & Hn & Hp).
      rewrite bytearray_ok by (apply Hheader; auto).
      cbn [rbind]. apply add_properties_Ok_iff. exact Hp.
  - intros e H.
    destruct (bytearray header) as [head|e1] eqn:Eh; cbn [rbind] in H.
    + apply (add_properties_Raise props head). exact H.
    + injection H as <-. left. apply (bytearray_Raise header). exact Eh.
  - intros Hbad.
    destruct (bytearray header) as [head|e1] eqn:Eh; cbn [rbind].
    + exfalso. apply Hbad. apply Hheader. apply bytearray_Ok_iff. eauto.
    + rewrite (bytearray_Raise header e1 Eh). reflexivity.
Qed.

Lemma create_packet_succeeds_witness :
  (is_byte 0x02 /\ is_byte 0x7D /\ is_byte 0x01 /\ is_byte 0x62 /\
   (List.length [[0x80; 0]; [0xD3; 2; 0xFF; 0xF6]] <= 255)%nat /\
   Forall prop_encodable [[0x80; 0]; [0xD3; 2; 0xFF; 0xF6]]) /\
  (exists packet,
      create_echonet_packet (-1) 0x02 0x7D 0x01 0x62 [[0x80; 0]; [0xD3; 2; 0xFF; 0xF6]]
      = Ok packet) /\
  (create_echonet_packet 7 0x02 0x7D 0x01 0x62 [[0x80; 0]; [0xD3]]
   = Raise (IndexError "tuple index out of range") /\
   (IndexError "tuple index out of range"
    = ValueError "byte must be in range(0, 256)" \/
    ((exists msg, IndexError "tuple index out of range" = IndexError msg) /\
     Exists (fun prop => (List.length prop < 2)%nat) [[0x80; 0]; [0xD3]]))) /\
  (~ (is_byte 0x02 /\ is_byte 0x7D /\ is_byte 0x01 /\ is_byte 0x162 /\
      (List.length [[0x80; 0]] <= 255)%nat) /\
   create_echonet_packet 7 0x02 0x7D 0x01 0x162 [[0x80; 0]]
   = Raise (ValueError "byte must be in range(0, 256)")).
Proof.
  assert (H : is_byte 0x02 /\ is_byte 0x7D /\ is_byte 0x01 /\ is_byte 0x62 /\
              (List.length [[0x80; 0]; [0xD3; 2; 0xFF; 0xF6]] <= 255)%nat /\
              Forall prop_encodable [[0x80; 0]; [0xD3; 2; 0xFF; 0xF6]]).
  { unfold is_byte.
    split; [lia|]. split; [lia|]. split; [lia|]. split; [lia|].
    split; [cbn; lia|].
    repeat (apply Forall_cons || apply Forall_nil);
      unfold prop_encodable, is_byte;
      (split; [lia|]; split; [lia|]; intros _;
       repeat (apply Forall_cons || apply Forall_nil); unfold is_byte; lia). }
  assert (R : create_echonet_packet 7 0x02 0x7D 0x01 0x62 [[0x80; 0]; [0xD3]]
              = Raise (IndexError "tuple index out of range"))
    by (vm_compute; reflexivity).
  assert (B : ~ (is_byte 0x02 /\ is_byte 0x7D /\ is_byte 0x01 /\ is_byte 0x162 /\
                 (List.length [[0x80; 0]] <= 255)%nat))
    by (unfold is_byte; lia).
  split; [exact H|]. split; [|split].
  - exact (proj2 (proj1 (create_packet_succeeds_iff (-1) 0x02 0x7D 0x01 0x62
                           [[0x80; 0]; [0xD3; 2; 0xFF; 0xF6]])) H).
  - split; [exact R|].
    exact (proj1 (proj2 (create_packet_succeeds_iff 7 0x02 0x7D 0x01 0x62
                           [[0x80; 0]; [0xD3]])) _ R).
  - split; [exact B|].
    exact (proj2 (proj2 (create_packet_succeeds_iff 7 0x02 0x7D 0x01 0x162
                           [[0x80; 0]])) B).
Defined.

Lemma add_properties_length (props : list (list Z)) :
  forall packet out : bytes,
    add_properties packet props = Ok out ->
    len out = len packet + total (map encoded_size props).
Proof.
  induction props as [|prop props IH]; intros packet out H.
  - injection H as <-. cbn. lia.
  - destruct prop as [|epc [|pdc edt]]; try discriminate.
    rewrite add_properties_cons in H.
    destruct (bytearray [epc; pdc]) as [head|] eqn:Eh; [|discriminate].
    cbn [rbind] in H. apply bytearray_length in Eh.
    cbn [map total fold_right encoded_size]. fold (total (map encoded_size props)).
    destruct (pdc >? 0).
    + destruct (bytearray edt) as [payload|] eqn:Ep; [|discriminate].
      cbn [rbind] in H. apply bytearray_length in Ep.
      rewrite (IH _ _ H). unfold len. rewrite !length_app, Eh, Ep.
      cbn [List.length]. lia.
    + cbn [rbind] in H. rewrite (IH _ _ H). unfold len.
      rewrite !length_app, Eh. cbn [List.length]. lia.
Qed.

(** A packet the encoder returns has 12 bytes of header and, for each
    property, 2 bytes plus the payload when the declared length is
    positive; the payload is counted by its real length, not by the
    declared one. *)
Theorem create_packet_length
    (tid eojgc eojcc eojci esv : Z) (props : list (list Z)) (packet : bytes) :
  create_echonet_packet tid eojgc eojcc eojci esv props = Ok packet ->
  len packet = 12 + total (map encoded_size props).
Proof.
  unfold create_echonet_packet. intros H.
  match type of H with
  | rbind (bytearray ?xs) _ = _ =>
      destruct (bytearray xs) as [head|] eqn:Eh; [|discriminate]
  end.
  cbn [rbind] in H. apply bytearray_length in Eh.
  rewrite (add_properties_length _ _ _ H). unfold len. rewrite Eh.
  cbn [List.length]. lia.
Qed.

Lemma create_packet_length_witness :
  create_echonet_packet 7 0x02 0x7D 0x01 0x62 [[0x80; 0]; [0xD3; 2; 0xFF; 0xF6]]
  = Ok [Byte.x10; Byte.x81; Byte.x00; Byte.x07; Byte.x05; Byte.xff; Byte.x01;
        Byte.x02; Byte.x7d; Byte.x01; Byte.x62; Byte.x02; Byte.x80; Byte.x00;
        Byte.xd3; Byte.x02; Byte.xff; Byte.xf6] /\
  len [Byte.x10; Byte.x81; Byte.x00; Byte.x07; Byte.x05; Byte.xff; Byte.x01;
       Byte.x02; Byte.x7d; Byte.x01; Byte.x62; Byte.x02; Byte.x80; Byte.x00;
       Byte.xd3; Byte.x02; Byte.xff; Byte.xf6]
  = 12 + total (map encoded_size [[0x80; 0]; [0xD3; 2; 0xFF; 0xF6]]).
Proof.
  assert (H : create_echonet_packet 7 0x02 0x7D 0x01 0x62
                [[0x80; 0]; [0xD3; 2; 0xFF; 0xF6]]
              = Ok [Byte.x10; Byte.x81; Byte.x00; Byte.x07; Byte.x05; Byte.xff;
                    Byte.x01; Byte.x02; Byte.x7d; Byte.x01; Byte.x62; Byte.x02;
                    Byte.x80; Byte.x00; Byte.xd3; Byte.x02; Byte.xff; Byte.xf6])
    by (vm_compute; reflexivity).
  split; [exact H|].
  exact (create_packet_length _ _ _ _ _ _ _ H).
Defined.

Lemma add_properties_zero_length (epc : Z) (edt : list Z) (post : list (list Z))
    (pre : list (list Z)) :
  forall packet : bytes,
    add_properties packet (pre ++ (epc :: 0 :: edt) :: post)
    = add_properties packet (pre ++ [epc; 0] :: post).
Proof.
  induction pre as [|prop pre IH]; intros packet.
  - cbn [app]. rewrite !add_properties_cons. reflexivity.
  - cbn [app]. destruct prop as [|a [|b c]]; try reflexivity.
    rewrite !add_properties_cons.
    destruct (bytearray [a; b]) as [head|]; [|reflexivity].
    cbn [rbind].
    destruct (if b >? 0 then bytearray c else Ok []) as [payload|]; [|reflexivity].
    cbn [rbind]. apply IH.
Qed.

(** A property declared with length 0 is encoded without its payload,
    whatever the payload holds (elements that are not bytes included):
    the encoder gives the same result, packet or exception, as for the
    property with no payload at all. *)
Theorem zero_length_payload_ignored
    (tid eojgc eojcc eojci esv epc : Z) (edt : list Z)
    (pre post : list (list Z)) :
  create_echonet_packet tid eojgc eojcc eojci esv (pre ++ (epc :: 0 :: edt) :: post)
  = create_echonet_packet tid eojgc eojcc eojci esv (pre ++ [epc; 0] :: post).
Proof.
  unfold create_echonet_packet.
  replace (len (pre ++ (epc :: 0 :: edt) :: post))
    with (len (pre ++ [epc; 0] :: post))
    by (unfold len; rewrite !length_app; reflexivity).
  destruct (bytearray _) as [head|]; [|reflexivity].
  cbn [rbind]. apply add_properties_zero_length.
Qed.

(** ** The transaction id *)

Lemma wire_header_tid_mod (tid eojgc eojcc eojci esv opc : Z) :
  wire_header (tid mod 65536) eojgc eojcc eojci esv opc
  = wire_header tid eojgc eojcc eojci esv opc.
Proof.
  unfold wire_header. rewrite !land_255, !shiftr_8.
  pose proof (Z.rem_mul_r tid 256 256 ltac:(lia) ltac:(lia)) as E.
  change (256 * 256) with 65536 in E.
  pose proof (Z.mod_pos_bound tid 256 ltac:(lia)) as R0.
  pose proof (Z.mod_pos_bound (tid / 256) 256 ltac:(lia)) as R1.
  assert (Hq : (tid mod 65536) / 256 = (tid / 256) mod 256).
  { symmetry. apply (Z.div_unique _ 256 _ (tid mod 256)); [lia|]. lia. }
  assert (Hr : (tid mod 65536) mod 256 = tid mod 256).
  { symmetry. apply (Z.mod_unique _ 256 ((tid / 256) mod 256)); [lia|]. lia. }
  rewrite Hq, Hr, Z.mod_mod by lia. reflexivity.
Qed.

(** Encoding a well-formed Frame with any integer as transaction id and
    parsing the packet. *)
Lemma create_then_parse (tid eojgc eojcc eojci esv : Z) (ps : list property) :
  is_byte eojgc -> is_byte eojcc -> is_byte eojci -> is_byte esv ->
  (List.length ps <= 255)%nat ->
  Forall wf_property ps ->
  exists packet,
    create_echonet_packet tid eojgc eojcc eojci esv (map prop_args ps) = Ok packet /\
    packet = wire_header tid eojgc eojcc eojci esv (len ps) ++ wire_properties ps /\
    parse_echonet_response packet
    = Ok (Some (mkFrame 0x1081 (tid mod 65536) (0x05, 0xFF, 0x01)
                  (eojgc, eojcc, eojci) esv (len ps) ps)).
Proof.
  intros Hg Hc Hi He Hn Hwf.
  eexists. split; [apply create_wire; assumption|]. split; [reflexivity|].
  rewrite <- wire_header_tid_mod.
  rewrite header_fields
    by (assumption || (unfold is_byte, len; lia)
        || (apply Z.mod_pos_bound; lia)).
  unfold len at 2. rewrite Nat2Z.id, scan_wire by assumption.
  reflexivity.
Qed.

(** The encoder keeps the low 16 bits of the transaction id: it accepts
    any integer, negative ones included, gives the packet it gives for
    the id reduced modulo 65536, and the parser reads that reduced id
    back. *)
Theorem transaction_id_wraps
    (tid eojgc eojcc eojci esv : Z) (ps : list property) :
  is_byte eojgc -> is_byte eojcc -> is_byte eojci -> is_byte esv ->
  (List.length ps <= 255)%nat ->
  Forall wf_property ps ->
  exists packet,
    create_echonet_packet tid eojgc eojcc eojci esv (map prop_args ps) = Ok packet /\
    create_echonet_packet (tid mod 65536) eojgc eojcc eojci esv (map prop_args ps)
    = Ok packet /\
    parse_echonet_response packet
    = Ok (Some (mkFrame 0x1081 (tid mod 65536) (0x05, 0xFF, 0x01)
                  (eojgc, eojcc, eojci) esv (len ps) ps)).
Proof.
  intros Hg Hc Hi He Hn Hwf.
  destruct (create_then_parse tid eojgc eojcc eojci esv ps Hg Hc Hi He Hn Hwf)
    as (packet & Hcreate & Hwire & Hparse).
  exists packet. split; [exact Hcreate|]. split; [|exact Hparse].
  rewrite create_wire by assumption.
  rewrite wire_header_tid_mod, Hwire. reflexivity.
Qed.

Lemma transaction_id_wraps_witness :
  let ps := [(0x80, 1, [Byte.x30])] in
  (is_byte 0x02 /\ is_byte 0x7D /\ is_byte 0x01 /\ is_byte 0x62 /\
   (List.length ps <= 255)%nat /\ Forall wf_property ps) /\
  exists packet,
    create_echonet_packet (-1) 0x02 0x7D 0x01 0x62 (map prop_args ps) = Ok packet /\
    create_echonet_packet ((-1) mod 65536) 0x02 0x7D 0x01 0x62 (map prop_args ps)
    = Ok packet /\
    parse_echonet_response packet
    = Ok (Some (mkFrame 0x1081 ((-1) mod 65536) (0x05, 0xFF, 0x01)
                  (0x02, 0x7D, 0x01) 0x62 (len ps) ps)).
Proof.
  intros ps.
  assert (H : is_byte 0x02 /\ is_byte 0x7D /\ is_byte 0x01 /\ is_byte 0x62 /\
              (List.length ps <= 255)%nat /\ Forall wf_property ps).
  { unfold is_byte, ps.
    split; [lia|]. split; [lia|]. split; [lia|]. split; [lia|].
    split; [cbn; lia | solve_wf]. }
  split; [exact H|].
  destruct H as (H1 & H2 & H3 & H4 & H5 & H6).
  exact (transaction_id_wraps (-1) 0x02 0x7D 0x01 0x62 ps H1 H2 H3 H4 H5 H6).
Defined.

(** Two well-formed Frames that the encoder maps to the same packet are
    the same Frame: same transaction id, destination identity, service
    code and properties. *)
Theorem create_packet_injective
    (tid1 g1 c1 i1 esv1 tid2 g2 c2 i2 esv2 : Z) (ps1 ps2 : list property)
    (packet : bytes) :
  0 <= tid1 < 65536 -> is_byte g1 -> is_byte c1 -> is_byte i1 -> is_byte esv1 ->
  (List.length ps1 <= 255)%nat -> Forall wf_property ps1 ->
  0 <= tid2 < 65536 -> is_byte g2 -> is_byte c2 -> is_byte i2 -> is_byte esv2 ->
  (List.length ps2 <= 255)%nat -> Forall wf_property ps2 ->
  create_echonet_packet tid1 g1 c1 i1 esv1 (map prop_args ps1) = Ok packet ->
  create_echonet_packet tid2 g2 c2 i2 esv2 (map prop_args ps2) = Ok packet ->
  tid1 = tid2 /\ (g1, c1, i1) = (g2, c2, i2) /\ esv1 = esv2 /\ ps1 = ps2.
Proof.
  intros Ht1 Hg1 Hc1 Hi1 He1 Hn1 Hw1 Ht2 Hg2 Hc2 Hi2 He2 Hn2 Hw2 E1 E2.
  destruct (create_then_parse tid1 g1 c1 i1 esv1 ps1 Hg1 Hc1 Hi1 He1 Hn1 Hw1)
    as (p1 & C1 & _ & P1).
  destruct (create_then_parse tid2 g2 c2 i2 esv2 ps2 Hg2 Hc2 Hi2 He2 Hn2 Hw2)
    as (p2 & C2 & _ & P2).
  rewrite E1 in C1. injection C1 as <-.
  rewrite E2 in C2. injection C2 as <-.
  rewrite P1 in P2. injection P2 as Et Eg Ec Ei Ee _ Ep.
  rewrite !Z.mod_small in Et by lia.
  subst. repeat split.
Qed.

Lemma create_packet_injective_witness :
  let ps := [(0x80, 1, [Byte.x30])] in
  let packet := [Byte.x10; Byte.x81; Byte.x00; Byte.x07; Byte.x05; Byte.xff;
                 Byte.x01; Byte.x02; Byte.x7d; Byte.x01; Byte.x72; Byte.x01;
                 Byte.x80; Byte.x01; Byte.x30] in
  (0 <= 7 < 65536 /\ is_byte 0x02 /\ is_byte 0x7D /\ is_byte 0x01 /\ is_byte 0x72 /\
   (List.length ps <= 255)%nat /\ Forall wf_property ps /\
   create_echonet_packet 7 0x02 0x7D 0x01 0x72 (map prop_args ps) = Ok packet) /\
  (7 = 7 /\ (0x02, 0x7D, 0x01) = (0x02, 0x7D, 0x01) /\ 0x72 = 0x72 /\ ps = ps).
Proof.
  intros ps packet.
  assert (H : 0 <= 7 < 65536 /\ is_byte 0x02 /\ is_byte 0x7D /\ is_byte 0x01 /\
              is_byte 0x72 /\ (List.length ps <= 255)%nat /\ Forall wf_property ps /\
              create_echonet_packet 7 0x02 0x7D 0x01 0x72 (map prop_args ps)
              = Ok packet).
  { unfold is_byte, ps.
    split; [lia|]. split; [lia|]. split; [lia|]. split; [lia|]. split; [lia|].
    split; [cbn; lia|]. split; [solve_wf | vm_compute; reflexivity]. }
  split; [exact H|].
  destruct H as (H1 & H2 & H3 & H4 & H5 & H6 & H7 & H8).
  exact (create_packet_injective 7 0x02 0x7D 0x01 0x72 7 0x02 0x7D 0x01 0x72
           ps ps packet H1 H2 H3 H4 H5 H6 H7 H1 H2 H3 H4 H5 H6 H7 H8 H8).
Defined.

(** ** Further properties of the parser *)

Lemma to_byte_int_of_byte (b : byte) : to_byte (int_of_byte b) = b.
Proof.
  unfold to_byte, int_of_byte. rewrite N2Z.id, Byte.of_to_N. reflexivity.
Qed.


Lemma scan_properties_wf (n : nat) :
  forall rest, Forall wf_property (scan_properties n rest).
Proof.
  induction n as [|n IH]; intros rest; cbn [scan_properties]; [constructor|].
  destruct rest as [|e [|p tl]]; try constructor.
  destruct (Nat.leb_spec (Z.to_nat (int_of_byte p)) (List.length tl)); constructor.
  - pose proof (int_of_byte_range e). pose proof (int_of_byte_range p).
    unfold wf_property, len. rewrite length_firstn. lia.
  - apply IH.
Qed.

(** More bytes at the end never change what was already scanned. *)
Lemma scan_properties_app (n : nat) :
  forall rest extra : bytes,
    starts_with (scan_properties n (rest ++ extra)) (scan_properties n rest).
Proof.
  unfold starts_with.
  induction n as [|n IH]; intros rest extra; [exists []; reflexivity|].
  destruct rest as [|e [|p tl]].
  - eexists. reflexivity.
  - eexists. reflexivity.
  - cbn [app scan_properties].
    destruct (Nat.leb_spec (Z.to_nat (int_of_byte p)) (List.length tl)) as [Fit|Cut].
    + rewrite length_app.
      destruct (Nat.leb_spec (Z.to_nat (int_of_byte p))
                  (List.length tl + List.length extra)); [|lia].
      rewrite firstn_app, skipn_app.
      replace (Z.to_nat (int_of_byte p) - List.length tl)%nat with 0%nat by lia.
      cbn [firstn skipn]. rewrite app_nil_r.
      destruct (IH (skipn (Z.to_nat (int_of_byte p)) tl) extra) as [more ->].
      exists more. reflexivity.
    + eexists. reflexivity.
Qed.

Lemma scan_properties_full_app (n : nat) (rest extra : bytes) :
  List.length (scan_properties n rest) = n ->
  scan_properties n (rest ++ extra) = scan_properties n rest.
Proof.
  intros Hfull.
  destruct (scan_properties_app n rest extra) as [more E].
  pose proof (scan_properties_length n (rest ++ extra)) as L.
  rewrite E, length_app, Hfull in L.
  destruct more as [|x more]; [|cbn in L; lia].
  rewrite E, app_nil_r. reflexivity.
Qed.

(** The scanned properties are, byte for byte, the start of the scanned
    bytes. *)
Lemma scan_properties_wire (n : nat) :
  forall rest : bytes,
    starts_with rest (wire_properties (scan_properties n rest)).
Proof.
  unfold starts_with.
  induction n as [|n IH]; intros rest; [exists rest; reflexivity|].
  destruct rest as [|e [|p tl]]; try (eexists; reflexivity).
  cbn [scan_properties].
  destruct (Nat.leb_spec (Z.to_nat (int_of_byte p)) (List.length tl)) as [Fit|Cut];
    [|eexists; reflexivity].
  destruct (IH (skipn (Z.to_nat (int_of_byte p)) tl)) as [tail Htail].
  exists tail. unfold wire_properties. cbn [flat_map wire_property].
  fold (wire_properties
          (scan_properties n (skipn (Z.to_nat (int_of_byte p)) tl))).
  rewrite !to_byte_int_of_byte. cbn [app]. do 2 f_equal.
  rewrite <- app_assoc, <- Htail, firstn_skipn. reflexivity.
Qed.

Lemma parsed_shape (data : bytes) (fr : frame) :
  parse_echonet_response data = Ok (Some fr) ->
  exists d0 d1 d2 d3 d4 d5 d6 d7 d8 d9 d10 d11 rest,
    data = d0 :: d1 :: d2 :: d3 :: d4 :: d5 :: d6 :: d7 :: d8 :: d9
              :: d10 :: d11 :: rest /\
    fr = mkFrame
           (Z.lor (Z.shiftl (int_of_byte d0) 8) (int_of_byte d1))
           (Z.lor (Z.shiftl (int_of_byte d2) 8) (int_of_byte d3))
           (int_of_byte d4, int_of_byte d5, int_of_byte d6)
           (int_of_byte d7, int_of_byte d8, int_of_byte d9)
           (int_of_byte d10) (int_of_byte d11)
           (scan_properties (Z.to_nat (int_of_byte d11)) rest).
Proof.
  intros H.
  destruct (Z.ltb_spec (len data) 12) as [Short|Long].
  - rewrite parse_short in H by assumption. discriminate.
  - destruct (long_shape data Long)
      as (d0 & d1 & d2 & d3 & d4 & d5 & d6 & d7 & d8 & d9 & d10 & d11 & rest & ->).
    rewrite parse_long in H. injection H as <-.
    repeat eexists.
Qed.

(** The parser reads a buffer from the front: adding bytes at the end of
    a buffer of at least 12 bytes leaves every header field as it was
    and can only add properties after those already returned. *)
Theorem parse_extension_keeps_prefix (data extra : bytes) :
  12 <= len data ->
  exists fr fr' : frame,
    parse_echonet_response data = Ok (Some fr) /\
    parse_echonet_response (data ++ extra) = Ok (Some fr') /\
    ehd fr' = ehd fr /\ tid fr' = tid fr /\ seoj fr' = seoj fr /\
    deoj fr' = deoj fr /\ esv fr' = esv fr /\ opc fr' = opc fr /\
    starts_with (props fr') (props fr).
Proof.
  intros H.
  destruct (long_shape data H)
    as (d0 & d1 & d2 & d3 & d4 & d5 & d6 & d7 & d8 & d9 & d10 & d11 & rest & ->).
  do 2 eexists. split; [apply parse_long|].
  cbn [app]. split; [apply parse_long|].
  cbn [ehd tid seoj deoj esv opc props].
  repeat (split; [reflexivity|]).
  apply scan_properties_app.
Qed.

Lemma parse_extension_witness :
  let data := [Byte.x10; Byte.x81; Byte.x00; Byte.x01; Byte.x02; Byte.x88;
               Byte.x01; Byte.x05; Byte.xff; Byte.x01; Byte.x72; Byte.x02;
               Byte.x80; Byte.x01; Byte.x30; Byte.x84; Byte.x02] in
  let extra := [Byte.x00; Byte.x96] in
  12 <= len data /\
  exists fr fr' : frame,
    parse_echonet_response data = Ok (Some fr) /\
    parse_echonet_response (data ++ extra) = Ok (Some fr') /\
    ehd fr' = ehd fr /\ tid fr' = tid fr /\ seoj fr' = seoj fr /\
    deoj fr' = deoj fr /\ esv fr' = esv fr /\ opc fr' = opc fr /\
    starts_with (props fr') (props fr).
Proof.
  intros data extra.
  assert (H : 12 <= len data) by (unfold len; simpl; lia).
  split; [exact H|].
  exact (parse_extension_keeps_prefix data extra H).
Defined.

(** When the parser has returned as many properties as the count byte
    declares, whatever follows them in the buffer is ignored. *)
Theorem parse_ignores_trailing_bytes (data extra : bytes) (fr : frame) :
  parse_echonet_response data = Ok (Some fr) ->
  len (props fr) = opc fr ->
  parse_echonet_response (data ++ extra) = Ok (Some fr).
Proof.
  intros Hparse Hfull.
  destruct (parsed_shape data fr Hparse)
    as (d0 & d1 & d2 & d3 & d4 & d5 & d6 & d7 & d8 & d9 & d10 & d11 & rest & -> & ->).
  cbn [props opc] in Hfull. cbn [app]. rewrite parse_long.
  rewrite scan_properties_full_app; [reflexivity|].
  unfold len in Hfull. pose proof (int_of_byte_range d11). lia.
Qed.

Lemma parse_ignores_trailing_witness :
  let data := [Byte.x10; Byte.x81; Byte.x00; Byte.x01; Byte.x02; Byte.x88;
               Byte.x01; Byte.x05; Byte.xff; Byte.x01; Byte.x72; Byte.x01;
               Byte.x80; Byte.x01; Byte.x30] in
  let fr := mkFrame 0x1081 1 (0x02, 0x88, 0x01) (0x05, 0xFF, 0x01) 0x72 1
              [(0x80, 1, [Byte.x30])] in
  (parse_echonet_response data = Ok (Some fr) /\ len (props fr) = opc fr) /\
  parse_echonet_response (data ++ [Byte.xde; Byte.xad]) = Ok (Some fr).
Proof.
  intros data fr.
  assert (H : parse_echonet_response data = Ok (Some fr) /\ len (props fr) = opc fr)
    by (split; vm_compute; reflexivity).
  split; [exact H|]. destruct H as [H1 H2].
  exact (parse_ignores_trailing_bytes data [Byte.xde; Byte.xad] fr H1 H2).
Defined.

Lemma lor_shiftl_bytes (a b : byte) :
  Z.lor (Z.shiftl (int_of_byte a) 8) (int_of_byte b)
  = int_of_byte a * 256 + int_of_byte b.
Proof.
  pose proof (int_of_byte_range a). pose proof (int_of_byte_range b).
  apply lor_shiftl_8; lia.
Qed.

(** Every frame the parser returns is within the ranges of the wire
    format: 16-bit marker and transaction id, 8-bit identity bytes,
    service code and count, no more properties than the count, and for
    each property an 8-bit code and a declared length that is the
    length of its payload, hence at most 255. *)
Theorem parsed_frame_in_range (data : bytes) (fr : frame) :
  parse_echonet_response data = Ok (Some fr) ->
  0 <= ehd fr < 65536 /\ 0 <= tid fr < 65536 /\
  (let '(a, b, c) := seoj fr in is_byte a /\ is_byte b /\ is_byte c) /\
  (let '(a, b, c) := deoj fr in is_byte a /\ is_byte b /\ is_byte c) /\
  is_byte (esv fr) /\ is_byte (opc fr) /\
  len (props fr) <= opc fr /\
  Forall wf_property (props fr).
Proof.
  intros Hparse.
  destruct (parsed_shape data fr Hparse)
    as (d0 & d1 & d2 & d3 & d4 & d5 & d6 & d7 & d8 & d9 & d10 & d11 & rest & -> & ->).
  cbn [ehd tid seoj deoj esv opc props]. rewrite !lor_shiftl_bytes.
  unfold is_byte.
  pose proof (int_of_byte_range d0). pose proof (int_of_byte_range d1).
  pose proof (int_of_byte_range d2). pose proof (int_of_byte_range d3).
  pose proof (int_of_byte_range d4). pose proof (int_of_byte_range d5).
  pose proof (int_of_byte_range d6). pose proof (int_of_byte_range d7).
  pose proof (int_of_byte_range d8). pose proof (int_of_byte_range d9).
  pose proof (int_of_byte_range d10). pose proof (int_of_byte_range d11).
  pose proof (scan_properties_length (Z.to_nat (int_of_byte d11)) rest).
  split; [lia|]. split; [lia|]. split; [lia|]. split; [lia|].
  split; [lia|]. split; [lia|]. split; [unfold len; lia|].
  apply scan_properties_wf.
Qed.

Lemma parsed_frame_in_range_witness :
  let data := [Byte.xff; Byte.xff; Byte.xff; Byte.xff; Byte.xff; Byte.xff;
               Byte.xff; Byte.xff; Byte.xff; Byte.xff; Byte.xff; Byte.xff;
               Byte.xff; Byte.x01; Byte.xff; Byte.xff] in
  let fr := mkFrame 0xFFFF 0xFFFF (0xFF, 0xFF, 0xFF) (0xFF, 0xFF, 0xFF) 0xFF 0xFF
              [(0xFF, 1, [Byte.xff])] in
  parse_echonet_response data = Ok (Some fr) /\
  (0 <= ehd fr < 65536 /\ 0 <= tid fr < 65536 /\
   (let '(a, b, c) := seoj fr in is_byte a /\ is_byte b /\ is_byte c) /\
   (let '(a, b, c) := deoj fr in is_byte a /\ is_byte b /\ is_byte c) /\
   is_byte (esv fr) /\ is_byte (opc fr) /\
   len (props fr) <= opc fr /\
   Forall wf_property (props fr)).
Proof.
  intros data fr.
  assert (H : parse_echonet_response data = Ok (Some fr))
    by (vm_compute; reflexivity).
  split; [exact H|].
  exact (parsed_frame_in_range data fr H).
Defined.

(** The parser never reads past the buffer and never invents a byte:
    the bytes that follow the 12-byte header start with the returned
    properties, each as its code byte, its length byte and its payload,
    one after the other. *)
Theorem parsed_properties_are_buffer_bytes (data : bytes) (fr : frame) :
  parse_echonet_response data = Ok (Some fr) ->
  starts_with (skipn 12 data) (wire_properties (props fr)) /\
  12 + len (wire_properties (props fr)) <= len data.
Proof.
  intros Hparse.
  destruct (parsed_shape data fr Hparse)
    as (d0 & d1 & d2 & d3 & d4 & d5 & d6 & d7 & d8 & d9 & d10 & d11 & rest & -> & ->).
  cbn [props skipn].
  pose proof (scan_properties_wire (Z.to_nat (int_of_byte d11)) rest) as P.
  split; [exact P|].
  destruct P as [tail E].
  unfold len. cbn [List.length]. rewrite E at 2. rewrite length_app. lia.
Qed.

Lemma parsed_properties_are_buffer_bytes_witness :
  let data := [Byte.x10; Byte.x81; Byte.x00; Byte.x01; Byte.x02; Byte.x88;
               Byte.x01; Byte.x05; Byte.xff; Byte.x01; Byte.x72; Byte.x02;
               Byte.x80; Byte.x01; Byte.x30; Byte.x84; Byte.x02; Byte.x00] in
  let fr := mkFrame 0x1081 1 (0x02, 0x88, 0x01) (0x05, 0xFF, 0x01) 0x72 2
              [(0x80, 1, [Byte.x30])] in
  parse_echonet_response data = Ok (Some fr) /\
  starts_with (skipn 12 data) (wire_properties (props fr)) /\
  12 + len (wire_properties (props fr)) <= len data.
Proof.
  intros data fr.
  assert (H : parse_echonet_response data = Ok (Some fr))
    by (vm_compute; reflexivity).
  split; [exact H|].
  exact (parsed_properties_are_buffer_bytes data fr H).
Defined.



(** * Further properties of the formatter *)

Lemma prefix_head_mismatch (c : ascii) (rest : string) :
  c <> "E"%char -> String.prefix "Error formatting" (String c rest) = false.
Proof.
  intros Hc. cbn [String.prefix].
  destruct (ascii_dec "E" c) as [E|_]; [congruence | reflexivity].
Qed.

(** The decimal rendering of an integer starts with a digit or a sign. *)
Lemma decimal_head (n : Z) :
  exists (c : ascii) (rest : string), decimal n = String c rest /\ c <> "E"%char.
Proof.
  unfold decimal.
  destruct (Z.to_int n) as [d|d]; destruct d; cbn;
    eexists; eexists; (split; [reflexivity | discriminate]).
Qed.

Lemma format_body_not_error (epc : Z) (edt : bytes) (s : string) :
  format_body epc edt = Ok s -> String.prefix "Error formatting" s = false.
Proof.
  unfold format_body, format_dispatch, str_int. intros H.
  destruct (Z.eqb_spec epc EPC_OPERATIONAL_STATUS) as [_|_].
  - destruct edt as [|b edt]; [discriminate|].
    change (bgetitem (b :: edt) 0) with (Ok (int_of_byte b)) in H.
    cbn [rbind] in H.
    destruct (int_of_byte b =? 48); injection H as <-; reflexivity.
  - repeat match type of H with
           | context [if ?c then _ else _] => destruct c
           end;
      cbn [rbind] in H; try discriminate H; injection H as <-;
      try (cbn [append]; apply prefix_head_mismatch; discriminate);
      match goal with
      | |- context [decimal ?v] =>
          destruct (decimal_head v) as (c & rest & -> & Hc);
          cbn [append]; apply prefix_head_mismatch; exact Hc
      end.
Qed.

(** The two ways the body of the formatter raises: the
    operational-status branch reading the first byte of an empty
    payload, and a numeric branch rendering an integer of more than
    4300 digits. *)
Lemma format_body_raises (epc : Z) (edt : bytes) (e : exn) :
  format_body epc edt = Raise e <->
  (epc = EPC_OPERATIONAL_STATUS /\ edt = [] /\ e = IndexError "index out of range") \/
  (exists v, Some v = rendered_integer epc edt /\
             10 ^ int_max_str_digits <= v /\ e = ValueError int_limit_message).
Proof.
  assert (Unsigned : forall u, u = from_bytes_big edt -> Z.abs u = u).
  { intros u ->. apply Z.abs_eq. apply from_bytes_big_bound. }
  unfold format_body, format_dispatch, rendered_integer.
  destruct (Z.eqb_spec epc EPC_OPERATIONAL_STATUS) as [E|N0].
  { subst epc.
    change (EPC_OPERATIONAL_STATUS =? EPC_POWER_CONSUMPTION) with false.
    change (EPC_OPERATIONAL_STATUS =? EPC_CUMULATIVE_POWER) with false.
    change (EPC_OPERATIONAL_STATUS =? EPC_INSTANTANEOUS_POWER) with false.
    change (EPC_OPERATIONAL_STATUS =? EPC_BATTERY_CHARGE_DISCHARGE) with false.
    cbv iota.
    destruct edt as [|b edt].
    - split.
      + intros H. injection H as <-. left. auto.
      + intros [(_ & _ & ->)|(v & Hv & _)]; [reflexivity | discriminate].
    - change (bgetitem (b :: edt) 0) with (Ok (int_of_byte b)). cbn [rbind].
      split; [discriminate|].
      intros [(_ & Hnil & _)|(v & Hv & _)]; discriminate. }
  destruct (Z.eqb_spec epc EPC_MANUFACTURER_CODE) as [E|N1].
  { subst epc.
    change (EPC_MANUFACTURER_CODE =? EPC_POWER_CONSUMPTION) with false.
    change (EPC_MANUFACTURER_CODE =? EPC_CUMULATIVE_POWER) with false.
    change (EPC_MANUFACTURER_CODE =? EPC_INSTANTANEOUS_POWER) with false.
    change (EPC_MANUFACTURER_CODE =? EPC_BATTERY_CHARGE_DISCHARGE) with false.
    cbn [rbind]. split; [discriminate|].
    intros [(H & _)|(v & Hv & _)]; [contradiction | discriminate]. }
  assert (Hother : ~ (epc = EPC_OPERATIONAL_STATUS /\ edt = [] /\
                      e = IndexError "index out of range"))
    by (intros (H & _); contradiction).
  destruct (epc =? EPC_POWER_CONSUMPTION).
  { destruct (len edt >=? 2).
    - apply numeric_branch_raises;
        [apply Unsigned; reflexivity | intros s; eexists; reflexivity | exact Hother].
    - cbn [rbind]. split; [discriminate|].
      intros [H|(v & Hv & _)]; [contradiction | discriminate]. }
  destruct (epc =? EPC_CUMULATIVE_POWER).
  { destruct (len edt >=? 4).
    - apply numeric_branch_raises;
        [apply Unsigned; reflexivity | intros s; eexists; reflexivity | exact Hother].
    - cbn [rbind]. split; [discriminate|].
      intros [H|(v & Hv & _)]; [contradiction | discriminate]. }
  destruct (epc =? EPC_INSTANTANEOUS_POWER).
  { destruct (len edt >=? 2).
    - apply numeric_branch_raises;
        [apply Unsigned; reflexivity | intros s; eexists; reflexivity | exact Hother].
    - cbn [rbind]. split; [discriminate|].
      intros [H|(v & Hv & _)]; [contradiction | discriminate]. }
  destruct (epc =? EPC_BATTERY_CHARGE_DISCHARGE).
  { destruct (len edt >=? 2).
    - cbv zeta. destruct (from_bytes_big_signed edt >=? 0).
      + apply numeric_branch_raises;
          [reflexivity | intros s; eexists; reflexivity | exact Hother].
      + apply numeric_branch_raises;
          [apply Z.abs_opp | intros s; eexists; reflexivity | exact Hother].
    - cbn [rbind]. split; [discriminate|].
      intros [H|(v & Hv & _)]; [contradiction | discriminate]. }
  cbn [rbind]. split; [discriminate|].
  intros [H|(v & Hv & _)]; [contradiction | discriminate].
Qed.

(** The integer a numeric branch renders fits in the bytes of the
    payload. *)
Lemma rendered_integer_bound (epc : Z) (edt : bytes) (v : Z) :
  Some v = rendered_integer epc edt -> 0 <= v < 2 ^ (8 * len edt).
Proof.
  unfold rendered_integer. intros H.
  pose proof (from_bytes_big_bound edt) as Bu.
  pose proof (len_nonneg edt) as Hn.
  repeat match type of H with
         | context [if ?c then _ else _] => destruct c eqn:?
         end;
    try discriminate H; injection H as ->; try exact Bu.
  unfold from_bytes_big_signed.
  match goal with
  | Hl : (len edt >=? 2) = true |- _ =>
      apply Z.geb_le in Hl
  end.
  assert (Hpow : 2 ^ (8 * len edt) = 2 * 2 ^ (8 * len edt - 1)).
  { rewrite <- Z.pow_succ_r by lia. f_equal. lia. }
  set (half := 2 ^ (8 * len edt - 1)) in *.
  set (full := 2 ^ (8 * len edt)) in *.
  set (u := from_bytes_big edt) in *.
  destruct ((0 <? 8 * len edt) && (half <=? u)) eqn:Eneg.
  - apply andb_true_iff in Eneg. destruct Eneg as [_ Hh].
    apply Z.leb_le in Hh. lia.
  - lia.
Qed.

(** The formatter answers with an "Error formatting" string in two
    cases only: the operational-status code 0x80 with an empty payload,
    and a numeric code whose payload is long enough for its branch and
    holds an integer of more than 4300 decimal digits, which the
    interpreter refuses to render.  For a payload of at most 255 bytes,
    as every payload the parser returns, only the first case remains. *)
Theorem error_string_cases (epc : Z) (edt : bytes) :
  exists s : string,
    format_property_value epc edt = Ok s /\
    (String.prefix "Error formatting" s = true
     <-> (epc = EPC_OPERATIONAL_STATUS /\ edt = []) \/
         (exists v, Some v = rendered_integer epc edt /\
                    10 ^ int_max_str_digits <= v)) /\
    (len edt <= 255 ->
     (String.prefix "Error formatting" s = true
      <-> epc = EPC_OPERATIONAL_STATUS /\ edt = [])).
Proof.
  unfold format_property_value.
  destruct (format_body epc edt) as [s|e] eqn:E.
  - exists s. split; [reflexivity|].
    rewrite (format_body_not_error _ _ _ E). split.
    + split; [discriminate|].
      intros [[-> ->]|(v & Hv & Hle)].
      * discriminate E.
      * assert (R : format_body epc edt = Raise (ValueError int_limit_message)).
        { apply format_body_raises. right. exists v. auto. }
        rewrite E in R. discriminate R.
    + intros _. split; [discriminate|].
      intros [-> ->]. discriminate E.
  - eexists. split; [reflexivity|].
    apply format_body_raises in E. split.
    + split; [|intros _; reflexivity].
      intros _. destruct E as [(H1 & H2 & _)|(v & Hv & Hle & _)].
      * left. auto.
      * right. exists v. auto.
    + intros Hmax. split; [|intros _; reflexivity].
      intros _. destruct E as [(H1 & H2 & _)|(v & Hv & Hle & _)]; [auto|].
      exfalso.
      pose proof (rendered_integer_bound epc edt v Hv) as [_ Hv'].
      pose proof (payload_below_limit edt Hmax) as Hlim.
      apply (Z.lt_irrefl v).
      apply Z.lt_le_trans with (10 ^ int_max_str_digits); [|exact Hle].
      apply Z.lt_trans with (2 ^ (8 * len edt)); assumption.
Qed.

Lemma error_string_cases_witness :
  len [Byte.x00; Byte.x96] <= 255 /\
  exists s : string,
    format_property_value 0x84 [Byte.x00; Byte.x96] = Ok s /\
    (String.prefix "Error formatting" s = true
     <-> 0x84 = EPC_OPERATIONAL_STATUS /\ [Byte.x00; Byte.x96] = []).
Proof.
  assert (H : len [Byte.x00; Byte.x96] <= 255) by (unfold len; simpl; lia).
  split; [exact H|].
  destruct (error_string_cases 0x84 [Byte.x00; Byte.x96]) as (s & Hs & _ & Hb).
  exists s. split; [exact Hs | exact (Hb H)].
Defined.

(** A power value of 1786 bytes 0xFF has 4301 digits: the formatter
    answers with the interpreter's refusal. *)
Example long_payload_is_refused :
  format_property_value 0x84 long_payload
  = Ok ("Error formatting: " ++ int_limit_message)%string.
Proof. vm_compute. reflexivity. Qed.

(** * Further properties of the sweep *)

Lemma device_types_bytes (eojgc eojcc eojci : Z) (device_name : string) :
  In (eojgc, eojcc, eojci, device_name) device_types ->
  is_byte eojgc /\ is_byte eojcc /\ is_byte eojci.
Proof.
  unfold device_types. cbn [In]. intros H.
  repeat (destruct H as [H|H];
          [inversion H; subst; unfold is_byte; repeat split; lia|]).
  contradiction.
Qed.

Lemma property_sets_decoded_wf (ps : list property) :
  In ps property_sets_decoded ->
  (List.length ps <= 3)%nat /\ Forall wf_property ps /\
  Forall (fun p : property => snd p = []) ps.
Proof.
  unfold property_sets_decoded. cbn [In]. intros H.
  repeat (destruct H as [H|H];
          [subst ps; split; [cbn; lia|]; split;
           [solve_wf | repeat constructor]|]).
  contradiction.
Qed.

Lemma land_65535 (n : Z) : Z.land n 0xFFFF = n mod 65536.
Proof. change 0xFFFF with (Z.ones 16). rewrite Z.land_ones by lia. reflexivity. Qed.

(** The request of a catalogue pair: its bytes and what the parser makes
    of them. *)
Lemma catalogue_request (w : world) (n : nat) (eojgc eojcc eojci : Z)
    (device_name : string) (prop_set : list (list Z)) :
  In (eojgc, eojcc, eojci, device_name) device_types ->
  In prop_set property_sets ->
  exists ps : list property,
    In ps property_sets_decoded /\
    prop_set = map prop_args ps /\
    request_bytes w (n, (eojgc, eojcc, eojci, device_name, prop_set))
    = wire_header (Z.land (clock_ms w n) 0xFFFF) eojgc eojcc eojci 0x62 (len ps)
        ++ wire_properties ps /\
    parse_echonet_response
      (request_bytes w (n, (eojgc, eojcc, eojci, device_name, prop_set)))
    = Ok (Some (mkFrame 0x1081 (clock_ms w n mod 65536) (0x05, 0xFF, 0x01)
                  (eojgc, eojcc, eojci) 0x62 (len ps) ps)).
Proof.
  intros Hd Hp.
  rewrite property_sets_args in Hp. apply in_map_iff in Hp.
  destruct Hp as (ps & <- & Hps). exists ps.
  destruct (device_types_bytes _ _ _ _ Hd) as (Hg & Hc & Hi).
  destruct (property_sets_decoded_wf ps Hps) as (Hn & Hwf & _).
  destruct (create_then_parse (Z.land (clock_ms w n) 0xFFFF) eojgc eojcc eojci 0x62 ps
              Hg Hc Hi ltac:(unfold is_byte; lia) ltac:(lia) Hwf)
    as (packet & Hcreate & Hwire & Hparse).
  unfold request_bytes, request_packet. rewrite Hcreate.
  split; [exact Hps|]. split; [reflexivity|]. split; [exact Hwire|].
  rewrite Hparse, land_65535, Z.mod_mod by lia. reflexivity.
Qed.

(** Every request the prober sends is a Get frame (service 0x62) from
    the controller to the device of the pair, whose transaction id is
    the clock in milliseconds modulo 65536 and whose properties are the
    codes of the group, each with an empty payload: that is what the
    parser of this program reads in it. *)
Theorem request_is_get_frame (w : world) (n : nat) (eojgc eojcc eojci : Z)
    (device_name : string) (prop_set : list (list Z)) :
  In (eojgc, eojcc, eojci, device_name) device_types ->
  In prop_set property_sets ->
  exists ps : list property,
    prop_set = map prop_args ps /\
    Forall (fun p : property => snd p = []) ps /\
    parse_echonet_response
      (request_bytes w (n, (eojgc, eojcc, eojci, device_name, prop_set)))
    = Ok (Some (mkFrame 0x1081 (clock_ms w n mod 65536) (0x05, 0xFF, 0x01)
                  (eojgc, eojcc, eojci) 0x62 (len ps) ps)).
Proof.
  intros Hd Hp.
  destruct (catalogue_request w n _ _ _ _ _ Hd Hp) as (ps & Hps & Hargs & _ & Hparse).
  exists ps. split; [exact Hargs|]. split; [|exact Hparse].
  apply (property_sets_decoded_wf ps Hps).
Qed.

Lemma request_is_get_frame_witness :
  (In (0x02, 0x7D, 0x01, "Storage Battery") device_types /\
   In [[EPC_INSTANTANEOUS_POWER; 0]; [EPC_BATTERY_CHARGE_DISCHARGE; 0]] property_sets) /\
  exists ps : list property,
    [[EPC_INSTANTANEOUS_POWER; 0]; [EPC_BATTERY_CHARGE_DISCHARGE; 0]]
    = map prop_args ps /\
    Forall (fun p : property => snd p = []) ps /\
    parse_echonet_response
      (request_bytes silent
         (2%nat, (0x02, 0x7D, 0x01, "Storage Battery",
                  [[EPC_INSTANTANEOUS_POWER; 0]; [EPC_BATTERY_CHARGE_DISCHARGE; 0]])))
    = Ok (Some (mkFrame 0x1081 (clock_ms silent 2 mod 65536) (0x05, 0xFF, 0x01)
                  (0x02, 0x7D, 0x01) 0x62 (len ps) ps)).
Proof.
  assert (H : In (0x02, 0x7D, 0x01, "Storage Battery") device_types /\
              In [[EPC_INSTANTANEOUS_POWER; 0]; [EPC_BATTERY_CHARGE_DISCHARGE; 0]]
                 property_sets).
  { split; [left; reflexivity | right; right; left; reflexivity]. }
  split; [exact H|]. destruct H as [H1 H2].
  exact (request_is_get_frame silent 2 0x02 0x7D 0x01 "Storage Battery"
           [[EPC_INSTANTANEOUS_POWER; 0]; [EPC_BATTERY_CHARGE_DISCHARGE; 0]] H1 H2).
Defined.

Lemma filter_no_payload (ps : list property) :
  Forall (fun p : property => snd p = []) ps -> filter has_payload ps = [].
Proof.
  induction 1 as [|[[epc pdc] edt] ps Hp _ IH]; [reflexivity|].
  cbn [snd] in Hp. subst edt. cbn [filter has_payload List.length Nat.eqb negb].
  exact IH.
Qed.

(** A device that sends the request back as it is gives no Reading: the
    properties of a request have empty payloads. *)
Theorem echoed_request_gives_no_reading (w : world) (n : nat)
    (eojgc eojcc eojci : Z) (device_name : string) (prop_set : list (list Z))
    (addr : address) :
  In (eojgc, eojcc, eojci, device_name) device_types ->
  In prop_set property_sets ->
  sendto_raises w n = None ->
  recvfrom_result w n
  = Ok (request_bytes w (n, (eojgc, eojcc, eojci, device_name, prop_set)), addr) ->
  attempt_readings w (n, (eojgc, eojcc, eojci, device_name, prop_set)) = [].
Proof.
  intros Hd Hp Hsend Hrecv.
  destruct (catalogue_request w n _ _ _ _ _ Hd Hp)
    as (ps & Hps & Hargs & Hwire & Hparse).
  destruct (property_sets_decoded_wf ps Hps) as (Hn & _ & Hempty).
  unfold attempt_readings. rewrite Hsend, Hrecv.
  assert (Hslice : slice (request_bytes w (n, (eojgc, eojcc, eojci, device_name, prop_set)))
                     0 1024
                   = request_bytes w (n, (eojgc, eojcc, eojci, device_name, prop_set))).
  { unfold slice. cbn [skipn Z.to_nat Z.sub Z.opp Z.add]. apply firstn_all2.
    rewrite Hwire, length_app. cbn [wire_header List.length].
    assert (L : (List.length (wire_properties ps) <= 2 * List.length ps)%nat).
    { clear - Hempty. induction Hempty as [|[[epc pdc] edt] ps Hp _ IH]; [cbn; lia|].
      cbn [snd] in Hp. subst edt. unfold wire_properties in *.
      cbn [flat_map wire_property List.length app]. lia. }
    change (Z.to_nat 1024) with 1024%nat. lia. }
  rewrite Hslice, Hparse. unfold frame_readings. cbn [props].
  rewrite filter_no_payload by exact Hempty. reflexivity.
Qed.

Lemma echoed_request_witness :
  let device := (0x02, 0x7D, 0x01, "Storage Battery") in
  let prop_set := [ [EPC_OPERATIONAL_STATUS; 0];
                    [EPC_INSTALLATION_LOCATION; 0];
                    [EPC_MANUFACTURER_CODE; 0] ] in
  (In device device_types /\ In prop_set property_sets /\
   sendto_raises echoing 0 = None /\
   recvfrom_result echoing 0
   = Ok (request_bytes echoing (0%nat, (device, prop_set)), ("192.168.1.20", 3610))) /\
  attempt_readings echoing (0%nat, (device, prop_set)) = [].
Proof.
  intros device prop_set.
  assert (H : In device device_types /\ In prop_set property_sets /\
              sendto_raises echoing 0 = None /\
              recvfrom_result echoing 0
              = Ok (request_bytes echoing (0%nat, (device, prop_set)),
                    ("192.168.1.20", 3610))).
  { split; [left; reflexivity|]. split; [left; reflexivity|].
    split; reflexivity. }
  split; [exact H|]. destruct H as (H1 & H2 & H3 & H4).
  exact (echoed_request_gives_no_reading echoing 0 0x02 0x7D 0x01 "Storage Battery"
           prop_set ("192.168.1.20", 3610) H1 H2 H3 H4).
Defined.

(** The readings of a datagram, as the sweep computes them. *)
Lemma datagram_readings (device_name : string) (h body : bytes) :
  List.length h = 11%nat ->
  match parse_echonet_response (slice (h ++ body) 0 1024) with
  | Ok (Some fr) => frame_readings device_name fr
  | _ => []
  end
  = match firstn 1013 body with
    | [] => []
    | count :: rest =>
        map (reading_of device_name)
          (filter has_payload
             (scan_properties (Z.to_nat (int_of_byte count)) rest))
    end.
Proof.
  intros Hh.
  assert (Hslice : slice (h ++ body) 0 1024 = h ++ firstn 1013 body).
  { change (slice (h ++ body) 0 1024) with (firstn (11 + 1013) (h ++ body)).
    rewrite <- Hh. apply firstn_app_2. }
  rewrite Hslice.
  do 11 (destruct h as [|? h]; [discriminate Hh|]).
  destruct h; [|discriminate Hh].
  cbn [app].
  destruct (firstn 1013 body) as [|count rest].
  - rewrite parse_short by (unfold len; cbn; lia). reflexivity.
  - rewrite parse_long. reflexivity.
Qed.

(** The prober does not look at the header of an answer: two answers to
    the same attempt that differ only in their first 11 bytes (marker,
    transaction id, source and destination identity, service code) and
    in their sender give the same Readings.  In particular an answer is
    not matched against the transaction id or the device of the
    request. *)
Theorem response_header_not_checked (w1 w2 : world) (n : nat)
    (pair : (Z * Z * Z * string) * list (list Z))
    (h1 h2 body : bytes) (addr1 addr2 : address) :
  List.length h1 = 11%nat -> List.length h2 = 11%nat ->
  sendto_raises w1 n = None -> sendto_raises w2 n = None ->
  recvfrom_result w1 n = Ok (h1 ++ body, addr1) ->
  recvfrom_result w2 n = Ok (h2 ++ body, addr2) ->
  attempt_readings w1 (n, pair) = attempt_readings w2 (n, pair).
Proof.
  intros L1 L2 S1 S2 R1 R2.
  destruct pair as [[[[eojgc eojcc] eojci] device_name] prop_set].
  unfold attempt_readings. rewrite S1, S2, R1, R2.
  rewrite (datagram_readings device_name h1 body L1).
  rewrite (datagram_readings device_name h2 body L2).
  reflexivity.
Qed.

Lemma response_header_not_checked_witness :
  let pair := (0x02, 0x7D, 0x01, "Storage Battery", [[EPC_OPERATIONAL_STATUS; 0]]) in
  let h1 := [Byte.x10; Byte.x81; Byte.x00; Byte.x01; Byte.x02; Byte.x7d;
             Byte.x01; Byte.x05; Byte.xff; Byte.x01; Byte.x72] in
  let h2 := [Byte.xde; Byte.xad; Byte.xbe; Byte.xef; Byte.x00; Byte.x11;
             Byte.x01; Byte.x00; Byte.x00; Byte.x00; Byte.x52] in
  let body := [Byte.x01; Byte.x80; Byte.x01; Byte.x30] in
  let w1 := mkWorld (fun _ => 0) (fun _ => None)
              (fun _ => Ok (h1 ++ body, ("192.168.1.20", 3610))) in
  let w2 := mkWorld (fun _ => 0) (fun _ => None)
              (fun _ => Ok (h2 ++ body, ("10.0.0.1", 9999))) in
  (List.length h1 = 11%nat /\ List.length h2 = 11%nat /\
   sendto_raises w1 0 = None /\ sendto_raises w2 0 = None /\
   recvfrom_result w1 0 = Ok (h1 ++ body, ("192.168.1.20", 3610)) /\
   recvfrom_result w2 0 = Ok (h2 ++ body, ("10.0.0.1", 9999))) /\
  attempt_readings w1 (0%nat, pair) = attempt_readings w2 (0%nat, pair).
Proof.
  intros pair h1 h2 body w1 w2.
  assert (H : List.length h1 = 11%nat /\ List.length h2 = 11%nat /\
              sendto_raises w1 0 = None /\ sendto_raises w2 0 = None /\
              recvfrom_result w1 0 = Ok (h1 ++ body, ("192.168.1.20", 3610)) /\
              recvfrom_result w2 0 = Ok (h2 ++ body, ("10.0.0.1", 9999)))
    by (repeat split; reflexivity).
  split; [exact H|]. destruct H as (H1 & H2 & H3 & H4 & H5 & H6).
  exact (response_header_not_checked w1 w2 0 pair h1 h2 body _ _ H1 H2 H3 H4 H5 H6).
Defined.

Lemma flat_map_nil {A B} (f : A -> list B) (xs : list A) :
  (forall x, In x xs -> f x = []) -> flat_map f xs = [].
Proof.
  induction xs as [|x xs IH]; intros H; [reflexivity|].
  cbn [flat_map]. rewrite (H x) by (left; reflexivity).
  apply IH. intros y Hy. apply H. right. exact Hy.
Qed.

Lemma attempts_index (n : nat) (pair : (Z * Z * Z * string) * list (list Z)) :
  In (n, pair) attempts ->
  (n < 15)%nat /\ In (fst pair) device_types /\ In (snd pair) property_sets.
Proof.
  unfold attempts. intros H.
  pose proof (in_combine_l _ _ _ _ H) as Hn.
  pose proof (in_combine_r _ _ _ _ H) as Hp.
  apply in_seq in Hn. change (List.length catalogue_pairs) with 15%nat in Hn.
  destruct pair as [device prop_set].
  unfold catalogue_pairs in Hp. apply in_prod_iff in Hp.
  cbn [fst snd]. split; [lia | exact Hp].
Qed.

(** When no attempt of a run gets a datagram (sending raises, or
    receiving times out or raises), the run still makes its 15 calls of
    [sendto], collects no Reading, returns [False], and the process
    exits with status 1. *)
Theorem no_answer_means_failure (w : world) (host : string) (port : Z) :
  (forall n, (n < 15)%nat ->
             sendto_raises w n <> None \/ exists e, recvfrom_result w n = Raise e) ->
  exists s : pstate,
    probe_echonet_device w host port initial_state = (Ok false, s) /\
    successful_readings s = [] /\
    List.length (sent s) = 15%nat /\
    exit_status w host port = 1.
Proof.
  intros Hsilent.
  assert (Hnone : flat_map (attempt_readings w) attempts = []).
  { apply flat_map_nil. intros [n pair] Ha.
    destruct (attempts_index n pair Ha) as (Hn & _ & _).
    destruct pair as [[[[eojgc eojcc] eojci] device_name] prop_set].
    unfold attempt_readings.
    destruct (Hsilent n Hn) as [Hs|[e He]].
    - destruct (sendto_raises w n); [reflexivity | congruence].
    - rewrite He. destruct (sendto_raises w n); reflexivity. }
  exists (sweep_state w host port).
  unfold exit_status, main, bind. rewrite probe_run.
  unfold sweep_state. cbn [successful_readings sent fst ret].
  rewrite Hnone. repeat split.
Qed.

Lemma no_answer_means_failure_witness :
  (forall n, (n < 15)%nat ->
             sendto_raises silent n <> None \/
             exists e, recvfrom_result silent n = Raise e) /\
  exists s : pstate,
    probe_echonet_device silent "192.168.1.20" 3610 initial_state = (Ok false, s) /\
    successful_readings s = [] /\
    List.length (sent s) = 15%nat /\
    exit_status silent "192.168.1.20" 3610 = 1.
Proof.
  assert (H : forall n, (n < 15)%nat ->
                        sendto_raises silent n <> None \/
                        exists e, recvfrom_result silent n = Raise e).
  { intros n _. right. exists SocketTimeout. reflexivity. }
  split; [exact H|].
  exact (no_answer_means_failure silent "192.168.1.20" 3610 H).
Defined.

Lemma frame_readings_length (device_name : string) (data : bytes) (fr : frame) :
  parse_echonet_response data = Ok (Some fr) ->
  (List.length (frame_readings device_name fr) <= 255)%nat.
Proof.
  intros Hparse.
  destruct (parsed_shape data fr Hparse)
    as (d0 & d1 & d2 & d3 & d4 & d5 & d6 & d7 & d8 & d9 & d10 & d11 & rest & -> & ->).
  unfold frame_readings. cbn [props]. rewrite length_map.
  pose proof (filter_length_le has_payload
                (scan_properties (Z.to_nat (int_of_byte d11)) rest)).
  pose proof (scan_properties_length (Z.to_nat (int_of_byte d11)) rest).
  pose proof (int_of_byte_range d11). lia.
Qed.

Lemma attempt_readings_length (w : world) (a : attempt) :
  (List.length (attempt_readings w a) <= 255)%nat.
Proof.
  destruct a as [n [[[[eojgc eojcc] eojci] device_name] prop_set]].
  unfold attempt_readings.
  destruct (sendto_raises w n); [cbn; lia|].
  destruct (recvfrom_result w n) as [[response addr]|e]; [|cbn; lia].
  destruct (parse_echonet_response (slice response 0 1024)) as [[fr|]|e] eqn:E;
    try (cbn; lia).
  eapply frame_readings_length. exact E.
Qed.

Lemma flat_map_length_bound {A B} (f : A -> list B) (k : nat) (xs : list A) :
  (forall x, (List.length (f x) <= k)%nat) ->
  (List.length (flat_map f xs) <= k * List.length xs)%nat.
Proof.
  intros H. induction xs as [|x xs IH]; [cbn; lia|].
  cbn [flat_map List.length]. rewrite length_app. specialize (H x). lia.
Qed.

(** A run collects at most 255 Readings per pair, hence at most 3825 in
    all, whatever the device sends: the count of an answer is one byte. *)
Theorem readings_bounded (w : world) (host : string) (port : Z) :
  exists (b : bool) (s : pstate),
    probe_echonet_device w host port initial_state = (Ok b, s) /\
    (List.length (successful_readings s) <= 3825)%nat /\
    Forall (fun a => (List.length (attempt_readings w a) <= 255)%nat) attempts.
Proof.
  do 2 eexists. split; [apply probe_run|].
  unfold sweep_state. cbn [successful_readings]. split.
  - pose proof (flat_map_length_bound (attempt_readings w) 255 attempts
                  (attempt_readings_length w)) as L.
    change (List.length attempts) with 15%nat in L. lia.
  - apply Forall_forall. intros a _. apply attempt_readings_length.
Qed.

(** Every Reading of a run names a device of the catalogue and comes
    from a property of an answer with an 8-bit code and a payload that
    is not empty: its description is "EPC 0x" followed by the code in
    two upper-case hexadecimal digits, and its value is what the
    formatter returns for that code and payload. *)
Theorem readings_provenance (w : world) (host : string) (port : Z) :
  exists (b : bool) (s : pstate),
    probe_echonet_device w host port initial_state = (Ok b, s) /\
    Forall (fun r : reading =>
              exists (device_name : string) (epc : Z) (edt : bytes) (value : string),
                In device_name device_names /\
                is_byte epc /\ edt <> [] /\
                format_property_value epc edt = Ok value /\
                r = (device_name, ("EPC 0x" ++ format_02X epc)%string, value))
           (successful_readings s).
Proof.
  do 2 eexists. split; [apply probe_run|].
  unfold sweep_state. cbn [successful_readings].
  apply Forall_forall. intros r Hr.
  apply in_flat_map in Hr. destruct Hr as ([n pair] & Ha & Hr).
  destruct (attempts_index n pair Ha) as (_ & Hd & _).
  destruct pair as [[[[eojgc eojcc] eojci] device_name] prop_set].
  cbn [fst] in Hd. unfold attempt_readings in Hr.
  destruct (sendto_raises w n); [contradiction|].
  destruct (recvfrom_result w n) as [[response addr]|e]; [|contradiction].
  destruct (parse_echonet_response (slice response 0 1024)) as [[fr|]|e] eqn:E;
    try contradiction.
  destruct (parsed_shape _ fr E)
    as (d0 & d1 & d2 & d3 & d4 & d5 & d6 & d7 & d8 & d9 & d10 & d11 & rest & _ & ->).
  unfold frame_readings in Hr. cbn [props] in Hr.
  apply in_map_iff in Hr. destruct Hr as ([[epc pdc] edt] & <- & Hp).
  apply filter_In in Hp. destruct Hp as [Hin Hpay].
  pose proof (scan_properties_wf (Z.to_nat (int_of_byte d11)) rest) as Hwf.
  rewrite Forall_forall in Hwf. specialize (Hwf _ Hin).
  destruct Hwf as (Hepc & _ & _).
  exists device_name, epc, edt, (formatted epc edt).
  split.
  { unfold device_names. apply in_map_iff.
    exists (eojgc, eojcc, eojci, device_name). split; [reflexivity | exact Hd]. }
  split; [exact Hepc|]. split.
  { intros ->. discriminate Hpay. }
  split; [apply format_ok | reflexivity].
Qed.
